(** * openHAB VS Code extension: the helpers of [client/src/Utils.ts]

    A shallow embedding of the string and REST helpers of [Utils.ts] and the
    properties of them that the specification states.

    Conventions of the embedding.
    - A JavaScript string is a [string]; its characters are read as ASCII
      code units.  Character classes ([a-z], [A-Z], [\d], [\s]) and the case
      maps are the ASCII ones; statements that depend on them are made for
      ASCII strings.
    - A JavaScript number is an integer ([Z]); it is rendered in decimal,
      which is what [Number::toString] does for integers below 10^21.
    - [null]/[undefined] configuration entries are [None].
    - A value put in a template literal is converted by [template], which
      fails where the conversion throws.
    - A promise is represented by the way it settles ([Settled]).
    - A [MarkdownString] is the sequence of [append...] calls made on it. *)

From Stdlib Require Import Bool Arith ZArith List Lia.
From Stdlib Require Import Strings.Ascii Strings.String Numbers.DecimalString.
Import ListNotations.

Local Open Scope string_scope.
Local Open Scope bool_scope.

(* ================================================================== *)
(** ** JavaScript string primitives *)
(* ================================================================== *)

Module JsString.

(** [strip_prefix p s] is the rest of [s] after its prefix [p], when [s]
    starts with [p]. *)
Fixpoint strip_prefix (p s : string) : option string :=
  match p with
  | "" => Some s
  | String a p' =>
      match s with
      | "" => None
      | String b s' => if Ascii.eqb a b then strip_prefix p' s' else None
      end
  end.

(** [s.startsWith(p)] *)
Definition startsWith (p s : string) : bool :=
  match strip_prefix p s with Some _ => true | None => false end.

(** The first occurrence of [pat] in [s]: the text before it and the text
    after it ([s.indexOf(pat)], returned as the two surrounding slices). *)
Fixpoint cut (pat s : string) : option (string * string) :=
  match strip_prefix pat s with
  | Some after => Some ("", after)
  | None =>
      match s with
      | "" => None
      | String c r =>
          match cut pat r with
          | Some (before, after) => Some (String c before, after)
          | None => None
          end
      end
  end.

(** [s.includes(pat)] *)
Definition includes (pat s : string) : bool :=
  match cut pat s with Some _ => true | None => false end.

(** [s.split(sep)] for a non-empty separator: the pieces between successive
    occurrences of [sep], searched from left to right, each search starting
    after the previous occurrence.  [n] bounds the number of occurrences
    consumed; [split] gives it the length of [s]. *)
Fixpoint split_upto (n : nat) (sep s : string) : list string :=
  match n with
  | O => [s]
  | S n' =>
      match cut sep s with
      | None => [s]
      | Some (a, b) => a :: split_upto n' sep b
      end
  end.

Definition split (sep s : string) : list string := split_upto (length s) sep s.

(** [arr[i]] on an array of strings, used in a string concatenation: an index
    past the end reads [undefined], which concatenation renders as the text
    "undefined". *)
Definition at_index (arr : list string) (i : nat) : string := nth i arr "undefined".

(** The replacement text of [String.prototype.replace] when the pattern is a
    string (ECMAScript GetSubstitution with no capture groups): [$$] stands
    for a dollar sign, [$&] for the matched text, [$`] for the text before
    the match and [$'] for the text after it; any other character, a dollar
    sign included, stands for itself. *)
Fixpoint getSubstitution (matched before after rep : string) : string :=
  match rep with
  | "" => ""
  | String c r =>
      if Ascii.eqb c "$" then
        match r with
        | "" => "$"
        | String d r' =>
            if Ascii.eqb d "$" then String "$" (getSubstitution matched before after r')
            else if Ascii.eqb d "&" then matched ++ getSubstitution matched before after r'
            else if Ascii.eqb d "`" then before ++ getSubstitution matched before after r'
            else if Ascii.eqb d "'" then after ++ getSubstitution matched before after r'
            else String "$" (getSubstitution matched before after r)
        end
      else String c (getSubstitution matched before after r)
  end.

(** [s.replace(pat, rep)] with a string pattern: only the first occurrence
    is replaced; without an occurrence [s] is returned as it is. *)
Definition replace (pat rep s : string) : string :=
  match cut pat s with
  | None => s
  | Some (before, after) => before ++ getSubstitution pat before after rep ++ after
  end.

(** Character classes of the regular expressions, on ASCII. *)
Definition code (c : ascii) : nat := nat_of_ascii c.

Definition between (lo hi : nat) (c : ascii) : bool :=
  Nat.leb lo (code c) && Nat.leb (code c) hi.

Definition is_lower (c : ascii) : bool := between 97 122 c.
Definition is_upper (c : ascii) : bool := between 65 90 c.
Definition is_digit (c : ascii) : bool := between 48 57 c.

(** [\s], and the characters removed by [trim]: tab, line feed, vertical tab,
    form feed, carriage return, space. *)
Definition is_space (c : ascii) : bool :=
  between 9 13 c || Nat.eqb (code c) 32.

Definition is_ascii (c : ascii) : bool := Nat.ltb (code c) 128.

Definition lower_char (c : ascii) : ascii :=
  if is_upper c then ascii_of_nat (code c + 32) else c.

Definition upper_char (c : ascii) : ascii :=
  if is_lower c then ascii_of_nat (code c - 32) else c.

Fixpoint map_chars (f : ascii -> ascii) (s : string) : string :=
  match s with
  | "" => ""
  | String c r => String (f c) (map_chars f r)
  end.

Fixpoint all_chars (p : ascii -> bool) (s : string) : bool :=
  match s with
  | "" => true
  | String c r => p c && all_chars p r
  end.

(** [s.toLowerCase()] *)
Definition toLowerCase (s : string) : string := map_chars lower_char s.

Fixpoint trimStart (s : string) : string :=
  match s with
  | "" => ""
  | String c r => if is_space c then trimStart r else s
  end.

Fixpoint trimEnd (s : string) : string :=
  match s with
  | "" => ""
  | String c r =>
      match trimEnd r with
      | "" => if is_space c then "" else String c ""
      | r' => String c r'
      end
  end.

(** [s.trim()] *)
Definition trim (s : string) : string := trimEnd (trimStart s).

(** Decimal rendering of an integer, as in [':' + port]. *)
Definition string_of_number (n : Z) : string := NilZero.string_of_int (Z.to_int n).

(** *** Regular-expression replacement

    A regular expression is given by what it does when tried at the start of
    an input: on a match, the replacement text (with [$1], [$2] already
    filled in) and the number of characters the match covers, less one; none
    of the expressions of [Utils.ts] matches the empty string. *)
Definition Matcher := string -> option (string * nat).

(** [s.replace(/re/g, rep)]: the input is scanned from left to right; where
    the expression matches, the replacement is emitted and the scan resumes
    after the match ([skip] counts the matched characters still to pass);
    elsewhere the character is copied. *)
Fixpoint replace_all_from (m : Matcher) (skip : nat) (s : string) : string :=
  match s with
  | "" => ""
  | String c r =>
      match skip with
      | S k => replace_all_from m k r
      | O =>
          match m s with
          | Some (rep, k) => rep ++ replace_all_from m k r
          | None => String c (replace_all_from m O r)
          end
      end
  end.

Definition replace_all (m : Matcher) (s : string) : string := replace_all_from m 0 s.

Fixpoint drop (n : nat) (s : string) : string :=
  match n, s with
  | O, _ => s
  | S _, "" => ""
  | S k, String _ r => drop k r
  end.

(** [s.replace(/re/, rep)] without the [g] flag: only the leftmost match is
    replaced. *)
Fixpoint replace_first (m : Matcher) (s : string) : string :=
  match m s with
  | Some (rep, k) => rep ++ drop (S k) s
  | None =>
      match s with
      | "" => ""
      | String c r => String c (replace_first m r)
      end
  end.

(** The longest prefix of [s] made of characters in the class [p]. *)
Fixpoint run_of (p : ascii -> bool) (s : string) : string :=
  match s with
  | "" => ""
  | String c r => if p c then String c (run_of p r) else ""
  end.

(** [/([a-z\d])([A-Z]+)/] replaced by ['$1_$2']. *)
Definition camel_boundary : Matcher := fun s =>
  match s with
  | "" => None
  | String c r =>
      if is_lower c || is_digit c then
        match run_of is_upper r with
        | "" => None
        | capitals => Some (String c (String "_" capitals), length capitals)
        end
      else None
  end.

(** [/[-\s]+/] replaced by ['_']. *)
Definition is_dash_or_space (c : ascii) : bool := Ascii.eqb c "-" || is_space c.

Definition dash_space_run : Matcher := fun s =>
  match run_of is_dash_or_space s with
  | "" => None
  | String _ more => Some ("_", length more)
  end.

(** [/_id$/] replaced by ['']: the expression matches only where the rest of
    the input is exactly [_id]. *)
Definition trailing_id : Matcher := fun s =>
  if s =? "_id" then Some ("", 2) else None.

(** [/_/] replaced by [' ']. *)
Definition underscore : Matcher := fun s =>
  match s with
  | String c _ => if Ascii.eqb c "_" then Some (" ", 0) else None
  | "" => None
  end.

(** lodash's [_.upperFirst]: the first character in upper case, the rest
    unchanged. *)
Definition upperFirst (s : string) : string :=
  match s with
  | "" => ""
  | String c r => String (upper_char c) r
  end.

End JsString.

Import JsString.

(* ================================================================== *)
(** ** [getHost] *)
(* ================================================================== *)

(** The entries of [workspace.getConfiguration('openhab')] that [getHost]
    reads. *)
Record Config := mkConfig {
  host : string;
  port : Z;
  username : option string;
  password : option string
}.

(** [x || ''] on an optional string. *)
Definition or_empty (x : option string) : string :=
  match x with Some s => s | None => "" end.

(** Truthiness of an optional string: [undefined], [null] and the empty
    string are falsy. *)
Definition truthy_str (x : option string) : bool :=
  match x with
  | Some s => negb (s =? "")
  | None => false
  end.

(** The local variables of [getHost] when it reaches its [return]. *)
Record HostLocals := mkHostLocals {
  l_protocol : string;
  l_host : string;
  l_authentication : string
}.

Definition getHost_locals (config : Config) : HostLocals :=
  let host0 := host config in
  let protocol0 := "http" in
  let '(host1, protocol1) :=
    if includes "://" host0 then
      let split := split "://" host0 in
      (at_index split 1, at_index split 0)
    else (host0, protocol0) in
  let authentication0 :=
    or_empty (username config)
    ++ (if truthy_str (password config) then ":" ++ or_empty (password config) else "") in
  let authentication1 :=
    authentication0 ++ (if negb (authentication0 =? "") then "@" else "") in
  mkHostLocals protocol1 host1 authentication1.

Definition getHost (config : Config) : string :=
  let l := getHost_locals config in
  l_protocol l ++ "://" ++ l_authentication l ++ l_host l
  ++ (if Z.eqb (port config) 80 then "" else ":" ++ string_of_number (port config)).

(* ================================================================== *)
(** ** [humanize] *)
(* ================================================================== *)

Definition humanize (str : string) : string :=
  let s1 := trim str in
  let s2 := replace_all camel_boundary s1 in
  let s3 := replace_all dash_space_run s2 in
  let s4 := toLowerCase s3 in
  let s5 := replace_all camel_boundary s4 in
  let s6 := replace_first trailing_id s5 in
  let s7 := replace_all underscore s6 in
  let s8 := replace_all underscore (replace_first trailing_id s7) in
  let s9 := trim s8 in
  upperFirst s9.

(* ================================================================== *)
(** ** [openBrowser] *)
(* ================================================================== *)

(** The two assignments to [url] in [openBrowser]; [base] is [getHost()] and
    [text] the text of the editor's selection. *)
Definition buildUrl (base url text : string) : string :=
  let url1 := if startsWith "http" url then url else base ++ url in
  replace "%s" (replace " " "%20" text) url1.

Inductive BrowserOutcome :=
| ShowInformationMessage (message : string)
| OpenUri (url : string).

(** [editor] is the selected text of the active editor, [None] without an
    active editor. *)
Definition openBrowser (config : Config) (editor : option string) (url : string)
  : BrowserOutcome :=
  match editor with
  | None => ShowInformationMessage "No editor is active"
  | Some text => OpenUri (buildUrl (getHost config) url text)
  end.

(* ================================================================== *)
(** ** JavaScript values and the REST helpers *)
(* ================================================================== *)

(** The values that [JSON.parse] yields and that a promise can be rejected
    with.  An object is its list of fields; a field is looked up by name. *)
#[warnings="-register-all"] Inductive JsVal :=
| JUndefined
| JNull
| JBool (b : bool)
| JNum (n : Z)
| JStr (s : string)
| JArr (items : list JsVal)
| JObj (fields : list (string * JsVal)).

(** Truthiness, as tested by [!x], [x ? a : b] and [x || y]. *)
Definition to_boolean (v : JsVal) : bool :=
  match v with
  | JUndefined | JNull => false
  | JBool b => b
  | JNum n => negb (Z.eqb n 0)
  | JStr s => negb (s =? "")
  | JArr _ | JObj _ => true
  end.

(** The text of a value inside a template literal, where the conversion to
    a string succeeds (see [renders] and [template] below). *)
Fixpoint to_string (v : JsVal) : string :=
  match v with
  | JUndefined => "undefined"
  | JNull => "null"
  | JBool true => "true"
  | JBool false => "false"
  | JNum n => string_of_number n
  | JStr s => s
  | JArr items =>
      (fix join (l : list JsVal) : string :=
         match l with
         | [] => ""
         | x :: rest =>
             let e := match x with
                      | JUndefined | JNull => ""
                      | _ => to_string x
                      end in
             match rest with
             | [] => e
             | _ :: _ => e ++ "," ++ join rest
             end
         end) items
  | JObj _ => "[object Object]"
  end.

(** The object has an own property [k]. *)
Fixpoint has_field (k : string) (fields : list (string * JsVal)) : bool :=
  match fields with
  | [] => false
  | (k', _) :: rest => (k' =? k) || has_field k rest
  end.

(** The conversion of [v] to a string succeeds.  It throws a TypeError for
    an object with an own [toString] property: a parsed value is never a
    function, so neither that property nor [valueOf] yields a primitive.  An
    array is joined from its elements, of which [null] and [undefined] are
    not converted. *)
Fixpoint renders (v : JsVal) : bool :=
  match v with
  | JArr items =>
      (fix all (l : list JsVal) : bool :=
         match l with
         | [] => true
         | x :: rest => renders x && all rest
         end) items
  | JObj fields => negb (has_field "toString" fields)
  | _ => true
  end.

(** [`${v}`]: the text of [v], or [None] when the conversion throws. *)
Definition template (v : JsVal) : option string :=
  if renders v then Some (to_string v) else None.

Fixpoint lookup (k : string) (fields : list (string * JsVal)) : JsVal :=
  match fields with
  | [] => JUndefined
  | (k', v) :: rest => if k' =? k then v else lookup k rest
  end.

(** [v.k] for the property names read in [Utils.ts] ([error], [message],
    [type], [name], [state], [members], [autoLinks]): reading a property of
    [undefined] or [null] throws a TypeError ([None]); an object gives the
    field or [undefined]; numbers, booleans, strings and arrays have none of
    these properties. *)
Definition get_prop (v : JsVal) (k : string) : option JsVal :=
  match v with
  | JUndefined | JNull => None
  | JObj fields => Some (lookup k fields)
  | _ => Some JUndefined
  end.

(** Computations that may throw: [None] is a thrown exception. *)
Definition bind {A B : Type} (x : option A) (f : A -> option B) : option B :=
  match x with
  | Some a => f a
  | None => None
  end.

Notation "x <- e ;; k" := (bind e (fun x => k))
  (at level 61, e at next level, right associativity).

(** A [MarkdownString] as the sequence of blocks appended to it. *)
Inductive Block :=
| Codeblock (code language : string)
| Markdown (value : string)
| Text (value : string).

Definition MarkdownString := list Block.

Definition appendCodeblock (code language : string) (doc : MarkdownString) : MarkdownString :=
  (doc ++ [Codeblock code language])%list.

Definition appendMarkdown (value : string) (doc : MarkdownString) : MarkdownString :=
  (doc ++ [Markdown value])%list.

Definition appendText (value : string) (doc : MarkdownString) : MarkdownString :=
  (doc ++ [Text value])%list.

Record Hover := mkHover { contents : MarkdownString }.

Definition newline : string := String (ascii_of_nat 10) "".

(** The callback of [result.members.forEach], run on the members from index
    [key] on; [len] is the length of the whole array. *)
Fixpoint forEach_member (len key : Z) (members : list JsVal) (resultText : MarkdownString)
  : option MarkdownString :=
  match members with
  | [] => Some resultText
  | member :: rest =>
      name <- get_prop member "name" ;;
      name <- template name ;;
      state <- get_prop member "state" ;;
      state <- template state ;;
      let resultText :=
        appendCodeblock ("Item " ++ name ++ " | " ++ state) "openhab" resultText in
      let resultText :=
        if negb (Z.eqb (len - 1) key) then appendText newline resultText else resultText in
      forEach_member len (key + 1) rest resultText
  end.

(** The construction of [resultText] in [getRestHover], for a [result]
    without error: the document, or [None] when building it throws. *)
Definition formatItem (result : JsVal) : option MarkdownString :=
  let resultText : MarkdownString := [] in
  type <- get_prop result "type" ;;
  match type with
  | JStr "Group" =>
      name <- get_prop result "name" ;;
      name <- template name ;;
      state <- get_prop result "state" ;;
      state <- template state ;;
      let resultText :=
        appendCodeblock ("Item " ++ name ++ " | " ++ state) "openhab" resultText in
      let resultText := appendMarkdown "##### Members:" resultText in
      members <- get_prop result "members" ;;
      match members with
      | JArr items => forEach_member (Z.of_nat (List.length items)) 0 items resultText
      | _ => None
      end
  | _ =>
      state <- get_prop result "state" ;;
      state <- template state ;;
      Some (appendCodeblock state "openhab" resultText)
  end.

(** How the [request] promise settles. *)
Inductive Response :=
| Fulfilled (body : string)
| Failed (reason : JsVal).

(** How a promise returned by a helper settles. *)
Inductive Settled (A : Type) :=
| Resolved (value : A)
| Rejected (reason : JsVal).

Arguments Resolved {A} value.
Arguments Rejected {A} reason.

Section Rest.

(** The network: how [request(url)] settles. *)
Variable request : string -> Response.

(** [JSON.parse]; [None] when it throws. *)
Variable JSON_parse : string -> option JsVal.

(** The [then] callback of [getRestHover]: [Some (Some h)] is
    [resolve(new Hover ...)], [Some None] is [resolve(null)], [None] is an
    exception thrown by the callback. *)
Definition hover_of_response (response : string) : option (option Hover) :=
  result <- JSON_parse response ;;
  error <- get_prop result "error" ;;
  if negb (to_boolean error) then
    resultText <- formatItem result ;;
    Some (Some (mkHover resultText))
  else Some None.

Definition getRestHover (config : Config) (hoveredText : string)
  : Settled (option Hover) :=
  match request (getHost config ++ "/rest/items/" ++ hoveredText) with
  | Fulfilled response =>
      match hover_of_response response with
      | Some outcome => Resolved outcome
      | None => Rejected (JBool false)
      end
  | Failed _ => Rejected (JBool false)
  end.

Definition getSimpleModeState (config : Config) : Settled JsVal :=
  match request (getHost config ++ "/rest/services/org.eclipse.smarthome.links/config") with
  | Fulfilled response =>
      match (responseJson <- JSON_parse response ;; get_prop responseJson "autoLinks") with
      | Some autoLinks => Resolved autoLinks
      | None => Rejected (JArr [])
      end
  | Failed _ => Rejected (JArr [])
  end.

Definition getSitemaps (config : Config) : Settled JsVal :=
  match request (getHost config ++ "/rest/sitemaps") with
  | Fulfilled response =>
      match JSON_parse response with
      | Some sitemaps => Resolved sitemaps
      | None => Rejected (JArr [])
      end
  | Failed _ => Rejected (JArr [])
  end.

End Rest.

(* ================================================================== *)
(** ** [handleRequestError] *)
(* ================================================================== *)

Inductive Action :=
| OpenWorkspaceSettings
| DisableRestApi
| NoAction.

(** [typeof err.error === 'string' ? err.error : err.error.message] *)
Definition error_message (err : JsVal) : option JsVal :=
  error <- get_prop err "error" ;;
  match error with
  | JStr s => Some (JStr s)
  | _ => get_prop error "message"
  end.

(** [choice] is what [showErrorMessage] resolves to: the button chosen, or
    [None] when the message is dismissed.  The result is the text shown and
    the action taken, or [None] when the function throws, which it does
    before the dialog is shown. *)
Definition handleRequestError (err : JsVal) (choice : option string)
  : option (string * Action) :=
  let setHost := "Set openHAB host" in
  let disableRest := "Disable REST API" in
  message <- error_message err ;;
  message <- (if to_boolean message then template message else Some "") ;;
  let shown := "Error while connecting to openHAB REST API. " ++ message in
  Some (shown,
        match choice with
        | Some c =>
            if c =? setHost then OpenWorkspaceSettings
            else if c =? disableRest then DisableRestApi
            else NoAction
        | None => NoAction
        end).

(* ================================================================== *)
(** ** [appendToOutput] and [openUI] *)
(* ================================================================== *)

(** An output channel of the editor: its name and the lines appended to
    it. *)
Record OutputChannel := mkChannel {
  channel_name : string;
  channel_lines : list string
}.

(** The module variable [extensionOutput] ([None] is [null]) and the names
    of the channels that [window.createOutputChannel] was asked for. *)
Record Output := mkOutput {
  extensionOutput : option OutputChannel;
  created : list string
}.

Definition appendLine (message : string) (ch : OutputChannel) : OutputChannel :=
  mkChannel (channel_name ch) (channel_lines ch ++ [message])%list.

Definition appendToOutput (message : string) (out : Output) : Output :=
  let out1 :=
    match extensionOutput out with
    | Some _ => out
    | None =>
        mkOutput (Some (mkChannel "openHAB Extension" []))
                 (created out ++ ["openHAB Extension"])%list
    end in
  match extensionOutput out1 with
  | Some ch => mkOutput (Some (appendLine message ch)) (created out1)
  | None => out1
  end.

(** The arguments of [PreviewPanel.createOrShow]. *)
Record PanelCall := mkPanelCall {
  panel_extensionPath : string;
  panel_title : option string;
  panel_src : string
}.

(** [query] and [title] are [None] when the argument is left out or
    [undefined]; [query] then takes its default. *)
Definition openUI (config : Config) (extensionPath : string)
           (query : option string) (title : option string) (out : Output)
  : Output * PanelCall :=
  let query := match query with Some q => q | None => "/basicui/app" end in
  let srcPath := getHost config ++ query in
  let out := appendToOutput ("URL that will be opened is: " ++ srcPath) out in
  (out, mkPanelCall extensionPath title srcPath).

(* ================================================================== *)
(** ** Vocabulary of the statements *)
(* ================================================================== *)

(** [pre] and [post] surround the first occurrence of [pat] in [s]. *)
Definition first_occurrence (pat s pre post : string) : Prop :=
  s = pre ++ pat ++ post
  /\ forall p q, s = p ++ pat ++ q -> length pre <= length p.

(** The text of [s] up to its first occurrence of ["://"], all of [s] when
    there is none. *)
Definition up_to_scheme_mark (s : string) : string :=
  match cut "://" s with
  | Some (before, _) => before
  | None => s
  end.

(** [s] with the first occurrence of [token] replaced by the text
    [replacement], taken literally; [s] itself without an occurrence. *)
Definition substitute_first (token replacement s : string) : string :=
  match cut token s with
  | Some (before, after) => before ++ replacement ++ after
  | None => s
  end.

Definition not_dollar (c : ascii) : bool := negb (Ascii.eqb c "$").
Definition not_upper (c : ascii) : bool := negb (is_upper c).
Definition not_underscore (c : ascii) : bool := negb (Ascii.eqb c "_").

(** [l] with [sep] between every two consecutive elements, and nowhere
    else. *)
Fixpoint intersperse {A : Type} (sep : A) (l : list A) : list A :=
  match l with
  | [] => []
  | x :: rest =>
      match rest with
      | [] => [x]
      | _ :: _ => x :: sep :: intersperse sep rest
      end
  end.

(** The text of the property [k] of [v] in a template literal. *)
Definition property_text (v : JsVal) (k : string) : string :=
  match get_prop v k with
  | Some x => to_string x
  | None => "undefined"
  end.

(** The code block of an item: "Item {name} | {state}". *)
Definition item_block (item : JsVal) : Block :=
  Codeblock ("Item " ++ property_text item "name" ++ " | " ++ property_text item "state")
    "openhab".

(** The property [k] of [v], [undefined] where it cannot be read. *)
Definition property (v : JsVal) (k : string) : JsVal :=
  match get_prop v k with
  | Some x => x
  | None => JUndefined
  end.

(** The name and the state of an item can be converted to text. *)
Definition item_renders (item : JsVal) : bool :=
  renders (property item "name") && renders (property item "state").

(** An error without a message to read: a number, a boolean, an array, or
    an object without a [message] property. *)
Definition message_absent (error : JsVal) : bool :=
  match error with
  | JNum _ | JBool _ | JArr _ => true
  | JObj fields => negb (has_field "message" fields)
  | _ => false
  end.

(** A replacement text in which no dollar sign starts one of the patterns
    [$$], [$&], [$`] and [$'] of [replace]. *)
Fixpoint pattern_free (rep : string) : bool :=
  match rep with
  | "" => true
  | String c r =>
      (negb (Ascii.eqb c "$")
       || match r with
          | "" => true
          | String d _ =>
              negb (Ascii.eqb d "$" || Ascii.eqb d "&" || Ascii.eqb d "`" || Ascii.eqb d "'")
          end)
      && pattern_free r
  end.

(** A value whose properties can be read: anything but [undefined] and
    [null]. *)
Definition has_properties (v : JsVal) : bool :=
  match v with
  | JUndefined | JNull => false
  | _ => true
  end.

(** [s] ends with [suffix]. *)
Fixpoint ends_with (suffix s : string) : bool :=
  (s =? suffix)
  || match s with
     | "" => false
     | String _ r => ends_with suffix r
     end.

(** A character of a word of a humanized text: an ASCII character that is
    not a capital, not white space, not a hyphen and not an underscore. *)
Definition word_char (c : ascii) : bool :=
  is_ascii c && negb (is_upper c) && negb (is_space c)
  && negb (Ascii.eqb c "-") && negb (Ascii.eqb c "_").

(** The rest of a text made of words separated by single spaces:
    [after_space] tells that the previous character was a space, which must
    then be followed by a character of a word. *)
Fixpoint words_from (after_space : bool) (s : string) : bool :=
  match s with
  | "" => negb after_space
  | String c r =>
      if Ascii.eqb c " " then negb after_space && words_from true r
      else word_char c && words_from false r
  end.

(** An already humanized text, as the specification describes it: a single
    leading capital, words separated by single spaces, no trailing [_id]. *)
Definition already_humanized (x : string) : bool :=
  match x with
  | "" => false
  | String c r => is_upper c && words_from false r && negb (ends_with "_id" x)
  end.

(** Spaces to underscores and back. *)
Definition space_to_underscore (c : ascii) : ascii :=
  if Ascii.eqb c " " then "_"%char else c.

Definition underscore_to_space (c : ascii) : ascii :=
  if Ascii.eqb c "_" then " "%char else c.

(** The expression [m] acts on [s] character by character, as [f]: where it
    matches, it matches one character [c] and replaces it by [f c]; where it
    does not, [f c] is [c]. *)
Fixpoint pointwise (m : Matcher) (f : ascii -> ascii) (s : string) : Prop :=
  match s with
  | "" => True
  | String c r =>
      (m s = Some (String (f c) "", 0) \/ (m s = None /\ f c = c))
      /\ pointwise m f r
  end.

(** The last term of the concatenation returned by [getHost]. *)
Definition portSuffix (config : Config) : string :=
  if Z.eqb (port config) 80 then "" else ":" ++ string_of_number (port config).

(** A character that [humanize] can leave in its result: no underscore, no
    hyphen, and no white space other than the space. *)
Definition plain_char (c : ascii) : bool :=
  negb (Ascii.eqb c "_") && negb (Ascii.eqb c "-")
  && (negb (is_space c) || Ascii.eqb c " ").

Definition not_dash_or_space (c : ascii) : bool := negb (is_dash_or_space c).

Definition first_is_space (s : string) : bool :=
  match s with
  | "" => false
  | String c _ => is_space c
  end.

Fixpoint last_is_space (s : string) : bool :=
  match s with
  | "" => false
  | String c "" => is_space c
  | String _ r => last_is_space r
  end.

(** The characters after the first one. *)
Definition tail_chars (s : string) : string :=
  match s with
  | "" => ""
  | String _ r => r
  end.

Definition first_is_lower (s : string) : bool :=
  match s with
  | "" => false
  | String c _ => is_lower c
  end.

Definition is_codeblock (b : Block) : bool :=
  match b with Codeblock _ _ => true | _ => false end.

Definition is_markdown (b : Block) : bool :=
  match b with Markdown _ => true | _ => false end.

Definition is_text (b : Block) : bool :=
  match b with Text _ => true | _ => false end.

Definition count (p : Block -> bool) (doc : MarkdownString) : nat :=
  List.length (filter p doc).

(** The first seven steps of [humanize], without the fifth. *)
Definition humanize_core (str : string) : string :=
  replace_all underscore
    (replace_first trailing_id
       (toLowerCase
          (replace_all dash_space_run
             (replace_all camel_boundary (trim str))))).

(** [humanize] without its fifth and eighth steps. *)
Definition humanize_short (str : string) : string :=
  upperFirst (trim (humanize_core str)).

(** The state of the output after the messages [msgs] were sent to it one
    after the other. *)
Definition appendAll (msgs : list string) (out : Output) : Output :=
  fold_left (fun o m => appendToOutput m o) msgs out.

(** A phrase of words without capitals, separated by single spaces. *)
Definition plain_words (y : string) : bool :=
  match y with
  | "" => false
  | String c r => word_char c && words_from false r
  end.

(** The lines of the output channel, none before the channel exists. *)
Definition output_lines (out : Output) : list string :=
  match extensionOutput out with
  | Some ch => channel_lines ch
  | None => []
  end.

(** The sentence that starts every message of [handleRequestError]. *)
Definition error_prefix : string := "Error while connecting to openHAB REST API. ".

(* ================================================================== *)
(** ** The examples of the specification *)
(* ================================================================== *)

Example getHost_ex1 :
  getHost (mkConfig "myhab.example.com" 8080 (Some "bob") (Some "pw"))
  = "http://bob:pw@myhab.example.com:8080".
Proof. reflexivity. Qed.

Example getHost_ex2 :
  getHost (mkConfig "https://myhab.example.com" 80 None None)
  = "https://myhab.example.com".
Proof. reflexivity. Qed.

Example getHost_ex3 :
  getHost (mkConfig "a://b://c" 80 (Some "") (Some "pw")) = "a://:pw@b".
Proof. reflexivity. Qed.

Example humanize_ex1 : humanize "  fooBar-baz  qux_id " = "Foo bar baz qux".
Proof. reflexivity. Qed.

Example humanize_ex2 : humanize "HTTPServer2Go" = "Httpserver2 go".
Proof. reflexivity. Qed.

Example humanize_stages :
  let s2 := replace_all camel_boundary (trim " someCamel-Case  name_id ") in
  let s3 := replace_all dash_space_run s2 in
  let s5 := replace_all camel_boundary (toLowerCase s3) in
  let s6 := replace_first trailing_id s5 in
  s2 = "some_Camel-Case  name_id"
  /\ s3 = "some_Camel_Case_name_id"
  /\ s5 = "some_camel_case_name_id"
  /\ s6 = "some_camel_case_name"
  /\ humanize " someCamel-Case  name_id " = "Some camel case name".
Proof. repeat split. Qed.

Example already_humanized_ex :
  already_humanized "Some item" = true
  /\ already_humanized "Some  item" = false
  /\ already_humanized "Some item " = false
  /\ already_humanized "Some Item" = false
  /\ already_humanized "Some-item" = false
  /\ already_humanized "some item" = false.
Proof. repeat split. Qed.

Example replace_ex :
  replace "%s" "[$&|$`|$'|$$|$1]" "a%sb" = "a[%s|a|b|$|$1]b".
Proof. reflexivity. Qed.

Example split_ex : split "://" "a://b://c" = ["a"; "b"; "c"].
Proof. reflexivity. Qed.

(* ================================================================== *)
(** ** Strings: concatenation, prefixes, occurrences *)
(* ================================================================== *)

Lemma append_empty_r (s : string) : s ++ "" = s.
Proof. induction s as [|c s IH]; simpl; [reflexivity | now rewrite IH]. Qed.

Lemma append_assoc (a b c : string) : (a ++ b) ++ c = a ++ b ++ c.
Proof. induction a as [|x a IH]; simpl; [reflexivity | now rewrite IH]. Qed.

Lemma length_append (a b : string) : length (a ++ b) = length a + length b.
Proof. induction a as [|x a IH]; simpl; [reflexivity | now rewrite IH]. Qed.

Lemma strip_prefix_append (p r : string) : strip_prefix p (p ++ r) = Some r.
Proof.
  induction p as [|a p IH]; simpl; [reflexivity|].
  now rewrite Ascii.eqb_refl.
Qed.

Lemma strip_prefix_Some (p s r : string) : strip_prefix p s = Some r -> s = p ++ r.
Proof.
  revert s; induction p as [|a p IH]; intros s H; simpl in *.
  - now inversion H.
  - destruct s as [|b s]; [discriminate|].
    destruct (Ascii.eqb_spec a b) as [->|]; [|discriminate].
    now rewrite (IH _ H).
Qed.

Lemma strip_prefix_length (p s r : string) :
  strip_prefix p s = Some r -> length s = length p + length r.
Proof. intros H; apply strip_prefix_Some in H; subst; apply length_append. Qed.

Lemma cut_Some (pat s a b : string) : cut pat s = Some (a, b) -> s = a ++ pat ++ b.
Proof.
  revert a; induction s as [|c s IH]; intros a H; simpl in H.
  - destruct (strip_prefix pat "") eqn:E; [|discriminate].
    inversion H; subst; simpl; now apply strip_prefix_Some.
  - destruct (strip_prefix pat (String c s)) eqn:E.
    + inversion H; subst; simpl; now apply strip_prefix_Some.
    + destruct (cut pat s) as [[a' b']|] eqn:E'; [|discriminate].
      inversion H; subst; simpl; now rewrite <- (IH a').
Qed.

Lemma cut_minimal (pat s a b p q : string) :
  cut pat s = Some (a, b) -> s = p ++ pat ++ q -> length a <= length p.
Proof.
  revert a p; induction s as [|c s IH]; intros a p H Hs; simpl in H.
  - destruct (strip_prefix pat ""); [|discriminate].
    inversion H; simpl; lia.
  - destruct (strip_prefix pat (String c s)) eqn:E.
    + inversion H; simpl; lia.
    + destruct (cut pat s) as [[a' b']|] eqn:E'; [|discriminate].
      inversion H; subst a b'; clear H.
      destruct p as [|x p]; simpl in Hs.
      * rewrite Hs, strip_prefix_append in E; discriminate.
      * inversion Hs; subst; simpl.
        apply le_n_S, (IH a' p); [reflexivity | reflexivity].
Qed.

Lemma cut_None (pat s p q : string) : cut pat s = None -> s <> p ++ pat ++ q.
Proof.
  revert p; induction s as [|c s IH]; intros p H Hs; simpl in H.
  - destruct (strip_prefix pat "") eqn:E; [discriminate|].
    destruct p; simpl in Hs.
    + rewrite Hs, strip_prefix_append in E; discriminate.
    + discriminate.
  - destruct (strip_prefix pat (String c s)) eqn:E; [discriminate|].
    destruct (cut pat s) as [[a' b']|] eqn:E'; [discriminate|].
    destruct p as [|x p]; simpl in Hs.
    + rewrite Hs, strip_prefix_append in E; discriminate.
    + inversion Hs; subst. now apply (IH p).
Qed.

(** [cut] finds the first occurrence, and finds one whenever there is one. *)
Lemma cut_first_occurrence (pat s a b : string) :
  cut pat s = Some (a, b) -> first_occurrence pat s a b.
Proof.
  intros H; split; [now apply cut_Some | intros p q; exact (cut_minimal _ _ _ _ p q H)].
Qed.

Lemma includes_occurs (pat s : string) :
  includes pat s = true <-> exists p q, s = p ++ pat ++ q.
Proof.
  unfold includes; split.
  - destruct (cut pat s) as [[a b]|] eqn:E; [|discriminate].
    intros _; exists a, b; now apply cut_Some.
  - intros (p & q & Hs).
    destruct (cut pat s) as [[a b]|] eqn:E; [reflexivity|].
    exfalso; exact (cut_None _ _ p q E Hs).
Qed.

Lemma cut_length (pat s a b : string) :
  cut pat s = Some (a, b) -> length s = length a + length pat + length b.
Proof.
  intros H; apply cut_Some in H; subst.
  rewrite !length_append; lia.
Qed.

(** The bound of [split] is never reached: any bound from the length of the
    input on gives the same pieces. *)
Lemma split_upto_enough (sep : string) :
  sep <> "" ->
  forall n s, length s <= n -> split_upto n sep s = split_upto (length s) sep s.
Proof.
  intros Hsep.
  assert (Hpos : 0 < length sep) by (destruct sep; [congruence | simpl; lia]).
  assert (G : forall n m s, length s <= n -> length s <= m ->
                            split_upto n sep s = split_upto m sep s).
  { induction n as [|n IH]; intros m s Hn Hm.
    - destruct s; [|simpl in Hn; lia].
      destruct m; cbn [split_upto]; [reflexivity|].
      destruct (cut sep "") as [[a b]|] eqn:E; [|reflexivity].
      apply cut_length in E; simpl in E; lia.
    - destruct m as [|m].
      + destruct s; [|simpl in Hm; lia].
        cbn [split_upto]. destruct (cut sep "") as [[a b]|] eqn:E; [|reflexivity].
        apply cut_length in E; simpl in E; lia.
      + cbn [split_upto]. destruct (cut sep s) as [[a b]|] eqn:E; [|reflexivity].
        apply cut_length in E.
        f_equal; apply IH; lia. }
  intros n s Hn; apply G; [assumption | lia].
Qed.

Lemma split_upto_not_nil (n : nat) (sep s : string) : split_upto n sep s <> [].
Proof.
  destruct n; cbn [split_upto]; [discriminate|].
  destruct (cut sep s) as [[a b]|]; discriminate.
Qed.

(** Joining the pieces of [split] with the separator gives the text back. *)
Lemma concat_split (sep s : string) : sep <> "" -> concat sep (split sep s) = s.
Proof.
  intros Hsep; unfold split; generalize (length s) as n.
  intros n; revert s; induction n as [|n IH]; intros s; [reflexivity|].
  cbn [split_upto].
  destruct (cut sep s) as [[a b]|] eqn:E; [|reflexivity].
  pose proof (split_upto_not_nil n sep b) as Hne.
  specialize (IH b).
  destruct (split_upto n sep b) as [|x l]; [congruence|].
  cbn [concat] in *; rewrite IH.
  symmetry; now apply cut_Some.
Qed.

(** The first two pieces of [split]. *)
Lemma split_pieces (sep s pre post : string) :
  sep <> "" ->
  cut sep s = Some (pre, post) ->
  at_index (split sep s) 0 = pre
  /\ at_index (split sep s) 1 = match cut sep post with
                                | Some (mid, _) => mid
                                | None => post
                                end.
Proof.
  intros Hsep H.
  assert (Hpos : 0 < length sep) by (destruct sep; [congruence | simpl; lia]).
  pose proof (cut_length _ _ _ _ H) as Hlen.
  unfold split.
  destruct (length s) as [|n] eqn:En; [lia|].
  simpl; rewrite H; simpl; split; [reflexivity|].
  rewrite (split_upto_enough sep Hsep n post) by lia.
  destruct (cut sep post) as [[mid rest]|] eqn:E.
  - pose proof (cut_length _ _ _ _ E) as Hlen'.
    destruct (length post) as [|k] eqn:Ek; [lia|].
    simpl; now rewrite E.
  - destruct (length post); simpl; [reflexivity | now rewrite E].
Qed.

(* ================================================================== *)
(** ** [getHost]: scheme, authentication prefix, composition *)
(* ================================================================== *)

Lemma eqb_append_cons_l (c : ascii) (a b : string) : (String c a ++ b =? "") = false.
Proof. reflexivity. Qed.

(** Without user name and password there is no authentication prefix. *)
Lemma authentication_empty (config : Config) :
  or_empty (username config) = "" ->
  or_empty (password config) = "" ->
  l_authentication (getHost_locals config) = "".
Proof.
  destruct config as [h n u p]; unfold getHost_locals; cbn [host username password].
  intros Hu Hp.
  destruct u as [[|c u]|], p as [[|d p]|]; try discriminate;
    destruct (includes "://" h); reflexivity.
Qed.

(** Without "://" the configured host is taken as it is. *)
Lemma locals_without_scheme (config : Config) :
  includes "://" (host config) = false ->
  l_protocol (getHost_locals config) = "http"
  /\ l_host (getHost_locals config) = host config.
Proof.
  destruct config as [h n u p]; unfold getHost_locals; cbn [host].
  intros H; rewrite H; split; reflexivity.
Qed.

(** C1 (as stated, refuted): with an empty user name and the password "pw"
    the authentication prefix is ":pw@", not the empty string; so it is not
    true that an empty user name always gives an empty prefix. *)
Lemma password_without_username_counterexample :
  l_authentication (getHost_locals (mkConfig "h" 80 (Some "") (Some "pw"))) = ":pw@"
  /\ ~ (forall config,
          or_empty (username config) = "" ->
          l_authentication (getHost_locals config) = "").
Proof.
  split; [reflexivity|].
  intros H.
  specialize (H (mkConfig "h" 80 (Some "") (Some "pw")) eq_refl).
  discriminate H.
Qed.

(** C1 (amended): the authentication prefix of [getHost] is the user name
    (when not empty), then ":" and the password (when the password is not
    empty), then "@" when anything was produced.  With an empty user name the
    prefix is empty exactly when the password is empty too; a password alone
    gives ":" + password + "@". *)
Theorem getHost_authentication (config : Config) :
  let u := or_empty (username config) in
  let p := or_empty (password config) in
  l_authentication (getHost_locals config) =
    if u =? "" then (if p =? "" then "" else ":" ++ p ++ "@")
    else (if p =? "" then u ++ "@" else u ++ ":" ++ p ++ "@").
Proof.
  destruct config as [h n u p]; unfold getHost_locals; simpl.
  destruct (includes "://" h); simpl;
    destruct u as [[|c u]|], p as [[|d p]|]; simpl;
    rewrite ?append_assoc, ?append_empty_r; reflexivity.
Qed.

(** C7 (as stated, refuted): the host "a://b://c" is split at its first
    "://" into "a" and "b://c", but the bare host that [getHost] keeps is
    "b", not everything after the first occurrence. *)
Lemma second_scheme_mark_counterexample :
  cut "://" "a://b://c" = Some ("a", "b://c")
  /\ l_host (getHost_locals (mkConfig "a://b://c" 80 None None)) = "b"
  /\ ~ (forall config pre post,
          cut "://" (host config) = Some (pre, post) ->
          l_protocol (getHost_locals config) = pre
          /\ l_host (getHost_locals config) = post).
Proof.
  split; [reflexivity|]. split; [reflexivity|].
  intros H.
  destruct (H (mkConfig "a://b://c" 80 None None) "a" "b://c" eq_refl) as [_ H'].
  discriminate H'.
Qed.

(** C7 (amended): without "://" in the configured host the scheme is "http"
    and the host is used as it is; otherwise the scheme is the text before the
    first "://" and the bare host is the text after it up to the next "://",
    which is everything after it when "://" occurs only once. *)
Theorem getHost_scheme_and_host (config : Config) :
  (l_protocol (getHost_locals config), l_host (getHost_locals config)) =
    match cut "://" (host config) with
    | None => ("http", host config)
    | Some (pre, post) => (pre, up_to_scheme_mark post)
    end.
Proof.
  destruct config as [h n u p]; unfold getHost_locals, includes, up_to_scheme_mark.
  cbn [host].
  destruct (cut "://" h) as [[pre post]|] eqn:E; [|reflexivity].
  destruct (split_pieces "://" h pre post) as [H0 H1]; [discriminate | exact E |].
  cbn [l_protocol l_host]; now rewrite H0, H1.
Qed.

(** C4 (as stated, refuted): port 80, no scheme in the host and no user
    name, yet the result is not "http://" + host, because the password alone
    produces an authentication segment. *)
Lemma port80_password_only_counterexample :
  getHost (mkConfig "h" 80 None (Some "secret")) = "http://:secret@h"
  /\ ~ (forall config,
          port config = 80%Z ->
          includes "://" (host config) = false ->
          or_empty (username config) = "" ->
          getHost config = "http://" ++ host config).
Proof.
  split; [reflexivity|].
  intros H.
  specialize (H (mkConfig "h" 80 None (Some "secret")) eq_refl eq_refl eq_refl).
  discriminate H.
Qed.

Lemma portSuffix_empty_iff (config : Config) :
  portSuffix config = "" <-> port config = 80%Z.
Proof.
  unfold portSuffix; destruct (Z.eqb_spec (port config) 80) as [E|E]; split; intros H;
    try reflexivity; try assumption; [discriminate | contradiction].
Qed.

(** C4 (amended): the result of [getHost] is scheme + "://" + authentication
    prefix + host + port suffix, where the port suffix is empty exactly when
    the port is 80 and ":" + port otherwise; with port 80, no "://" in the
    host, an empty user name and an empty password it is exactly
    "http://" + host. *)
Theorem getHost_composition (config : Config) :
  getHost config =
    l_protocol (getHost_locals config) ++ "://" ++ l_authentication (getHost_locals config)
    ++ l_host (getHost_locals config) ++ portSuffix config
  /\ (portSuffix config = "" <-> port config = 80%Z)
  /\ (port config <> 80%Z -> portSuffix config = ":" ++ string_of_number (port config))
  /\ (port config = 80%Z ->
      includes "://" (host config) = false ->
      or_empty (username config) = "" ->
      or_empty (password config) = "" ->
      getHost config = "http://" ++ host config).
Proof.
  split; [reflexivity|].
  split; [apply portSuffix_empty_iff|].
  split.
  - intros H; unfold portSuffix.
    destruct (Z.eqb_spec (port config) 80); [contradiction | reflexivity].
  - intros Hport Hscheme Hu Hp.
    pose proof (authentication_empty config Hu Hp) as Ha.
    destruct (locals_without_scheme config Hscheme) as [H1 H2].
    unfold getHost; rewrite H1, H2, Ha, Hport; simpl.
    now rewrite append_empty_r.
Qed.

Lemma getHost_composition_witness :
  getHost (mkConfig "openhab.local" 80 None (Some "")) = "http://openhab.local".
Proof.
  exact (proj2 (proj2 (proj2 (getHost_composition (mkConfig "openhab.local" 80 None (Some "")))))
           eq_refl eq_refl eq_refl eq_refl).
Defined.

(* ================================================================== *)
(** ** [openBrowser]: composition of the URL *)
(* ================================================================== *)

Lemma all_chars_append (p : ascii -> bool) (a b : string) :
  all_chars p (a ++ b) = all_chars p a && all_chars p b.
Proof.
  induction a as [|c a IH]; simpl; [reflexivity|].
  now rewrite IH, andb_assoc.
Qed.

(** A replacement text without a dollar sign stands for itself. *)
Lemma getSubstitution_literal (matched before after rep : string) :
  all_chars not_dollar rep = true ->
  getSubstitution matched before after rep = rep.
Proof.
  induction rep as [|c r IH]; simpl; [reflexivity|].
  unfold not_dollar at 1.
  intros H; apply andb_prop in H as [Hc Hr].
  destruct (Ascii.eqb c "$"); [discriminate|].
  now rewrite IH.
Qed.

Lemma replace_literal (pat rep s : string) :
  all_chars not_dollar rep = true ->
  replace pat rep s = substitute_first pat rep s.
Proof.
  intros H; unfold replace, substitute_first.
  destruct (cut pat s) as [[a b]|]; [|reflexivity].
  now rewrite getSubstitution_literal.
Qed.

Lemma substitute_first_no_dollar (token rep s : string) :
  all_chars not_dollar rep = true ->
  all_chars not_dollar s = true ->
  all_chars not_dollar (substitute_first token rep s) = true.
Proof.
  intros Hr Hs; unfold substitute_first.
  destruct (cut token s) as [[a b]|] eqn:E; [|assumption].
  apply cut_Some in E; subst s.
  rewrite !all_chars_append in *.
  apply andb_prop in Hs as [Ha Hb]; apply andb_prop in Hb as [_ Hb].
  now rewrite Ha, Hr, Hb.
Qed.

(** C5 (as stated, refuted): the selected text "$$" is not substituted as it
    is: the token is replaced by a single dollar sign, since [replace] reads
    "$$" in its replacement text as an escaped dollar sign. *)
Lemma buildUrl_dollar_counterexample :
  buildUrl "http://h:8080" "/basicui/app?%s" "$$" = "http://h:8080/basicui/app?$"
  /\ ~ (forall base url text,
          buildUrl base url text =
          substitute_first "%s" (substitute_first " " "%20" text)
            (if startsWith "http" url then url else base ++ url)).
Proof.
  split; [reflexivity|].
  intros H; specialize (H "http://h:8080" "/basicui/app?%s" "$$").
  discriminate H.
Qed.

(** A replacement text without any of the four patterns stands for
    itself. *)
Lemma getSubstitution_pattern_free (matched before after rep : string) :
  pattern_free rep = true ->
  getSubstitution matched before after rep = rep.
Proof.
  induction rep as [|c r IH]; [reflexivity|].
  cbn [pattern_free getSubstitution]; intros H; apply andb_prop in H as [Hc Hr].
  rewrite (IH Hr).
  destruct (Ascii.eqb c "$") eqn:Ec; [|reflexivity].
  apply Ascii.eqb_eq in Ec; subst c.
  destruct r as [|d r']; [reflexivity|].
  cbn [negb orb] in Hc; apply negb_true_iff in Hc.
  apply orb_false_elim in Hc as [Hc H4]; apply orb_false_elim in Hc as [Hc H3].
  apply orb_false_elim in Hc as [H1 H2].
  now rewrite H1, H2, H3, H4.
Qed.

Lemma replace_pattern_free (pat rep s : string) :
  pattern_free rep = true ->
  replace pat rep s = substitute_first pat rep s.
Proof.
  intros H; unfold replace, substitute_first.
  destruct (cut pat s) as [[a b]|]; [|reflexivity].
  now rewrite getSubstitution_pattern_free.
Qed.

(** Escaping the first space brings no pattern about. *)
Lemma pattern_free_escape (a b : string) :
  pattern_free (a ++ " " ++ b) = true -> pattern_free (a ++ "%20" ++ b) = true.
Proof.
  induction a as [|c a IH].
  - cbn; intros H; exact H.
  - intros H; change (String c a ++ " " ++ b) with (String c (a ++ " " ++ b)) in H.
    change (String c a ++ "%20" ++ b) with (String c (a ++ "%20" ++ b)).
    cbn [pattern_free] in H |- *; apply andb_prop in H as [Hc Hr].
    rewrite (IH Hr), andb_true_r.
    destruct a as [|d a']; [|exact Hc].
    destruct (Ascii.eqb c "$"); reflexivity.
Qed.

Lemma pattern_free_substitute_space (text : string) :
  pattern_free text = true ->
  pattern_free (substitute_first " " "%20" text) = true.
Proof.
  intros H; unfold substitute_first.
  destruct (cut " " text) as [[a b]|] eqn:E; [|exact H].
  apply cut_Some in E; subst text; now apply pattern_free_escape.
Qed.

Lemma substitute_first_absent (token rep s : string) :
  includes token s = false -> substitute_first token rep s = s.
Proof.
  unfold includes, substitute_first.
  destruct (cut token s) as [[a b]|]; [discriminate | reflexivity].
Qed.

Lemma replace_without_token (pat rep s : string) :
  includes pat s = false -> replace pat rep s = s.
Proof.
  unfold includes, replace; destruct (cut pat s) as [[a b]|]; [discriminate | reflexivity].
Qed.

(** C5 (amended): [buildUrl] takes the URL as it is when it begins with
    "http" and prefixes it with the base otherwise; then it replaces the
    first occurrence of the token "%s" by the text fragment in which the
    first space has been replaced by "%20", provided that the fragment
    contains none of the sequences [$$], [$&], [$`] and [$'], which [replace]
    reads as patterns (any other dollar sign is taken as it is), or that the
    URL holds no token at all.  In particular
    buildUrl("http://h:8080", "/basicui/app?%s", "my item") is
    "http://h:8080/basicui/app?my%20item". *)
Theorem buildUrl_substitution (base url text : string) :
  (pattern_free text = true ->
   buildUrl base url text =
   substitute_first "%s" (substitute_first " " "%20" text)
     (if startsWith "http" url then url else base ++ url))
  /\ (includes "%s" (if startsWith "http" url then url else base ++ url) = false ->
      buildUrl base url text =
      substitute_first "%s" (substitute_first " " "%20" text)
        (if startsWith "http" url then url else base ++ url))
  /\ buildUrl "http://h:8080" "/basicui/app?%s" "my item"
     = "http://h:8080/basicui/app?my%20item".
Proof.
  split; [|split; [|reflexivity]].
  - intros H; unfold buildUrl.
    rewrite (replace_literal " " "%20" text) by reflexivity.
    apply replace_pattern_free.
    now apply pattern_free_substitute_space.
  - intros H; unfold buildUrl; cbv zeta.
    now rewrite (replace_without_token _ _ _ H), (substitute_first_absent _ _ _ H).
Qed.

Lemma buildUrl_substitution_witness :
  buildUrl "http://h:8080" "http://other/%s/x" "US$ 5 $1 $x $"
  = "http://other/US$%205 $1 $x $/x"
  /\ buildUrl "http://h:8080" "/start/index" "$$ and $&" = "http://h:8080/start/index".
Proof.
  split.
  - exact (proj1 (buildUrl_substitution "http://h:8080" "http://other/%s/x" "US$ 5 $1 $x $")
             eq_refl).
  - exact (proj1 (proj2 (buildUrl_substitution "http://h:8080" "/start/index" "$$ and $&"))
             eq_refl).
Defined.

(* ================================================================== *)
(** ** [getRestHover]: the document of a group *)
(* ================================================================== *)

Lemma intersperse_cons {A : Type} (sep x y : A) (l : list A) :
  intersperse sep (x :: y :: l) = x :: sep :: intersperse sep (y :: l).
Proof. reflexivity. Qed.

Lemma has_properties_get (v : JsVal) (k : string) :
  has_properties v = true -> get_prop v k = Some (property v k).
Proof. destruct v; simpl; intros H; try discriminate; reflexivity. Qed.

Lemma get_prop_property (v x : JsVal) (k : string) :
  get_prop v k = Some x -> property v k = x.
Proof. intros H; unfold property; now rewrite H. Qed.

Lemma property_text_eq (v : JsVal) (k : string) :
  has_properties v = true -> property_text v k = to_string (property v k).
Proof.
  intros H; unfold property_text; now rewrite (has_properties_get v k H).
Qed.

(** The loop over the members: every member appends its block, and every
    member but the one at index [len - 1] appends a line break after it; a
    member that is [null] or [undefined], or whose name or state cannot be
    converted to text, stops the loop with an exception. *)
Lemma forEach_member_blocks (len : Z) (members : list JsVal) :
  forall (key : Z) (doc : MarkdownString),
    len = (key + Z.of_nat (List.length members))%Z ->
    forEach_member len key members doc
    = if forallb has_properties members && forallb item_renders members
      then Some (doc ++ intersperse (Text newline) (map item_block members))%list
      else None.
Proof.
  induction members as [|m rest IH]; intros key doc Hlen.
  - simpl; now rewrite app_nil_r.
  - cbn [forallb forEach_member].
    destruct (has_properties m) eqn:Hm;
      [|destruct m; try discriminate; reflexivity].
    rewrite (has_properties_get m "name" Hm), (has_properties_get m "state" Hm).
    cbn [bind andb]; unfold item_renders at 1, template.
    destruct (renders (property m "name")); cbn [bind andb];
      [|now rewrite andb_false_r].
    destruct (renders (property m "state")); cbn [bind andb];
      [|now rewrite andb_false_r].
    cbv zeta.
    assert (Eb : Codeblock
                   ("Item " ++ to_string (property m "name") ++ " | "
                    ++ to_string (property m "state")) "openhab"
                 = item_block m).
    { unfold item_block; now rewrite !property_text_eq. }
    unfold appendCodeblock; rewrite !Eb.
    destruct rest as [|m' rest'].
    + replace (len - 1 =? key)%Z with true
        by (symmetry; apply Z.eqb_eq; cbn [List.length] in Hlen; lia).
      reflexivity.
    + replace (len - 1 =? key)%Z with false
        by (symmetry; apply Z.eqb_neq; cbn [List.length] in Hlen; lia).
      cbn [negb]. rewrite IH by (cbn [List.length] in *; lia).
      destruct (forallb has_properties (m' :: rest') && forallb item_renders (m' :: rest'));
        [|reflexivity].
      unfold appendText.
      cbn [map]; rewrite intersperse_cons, <- !app_assoc; reflexivity.
Qed.

Lemma intersperse_last {A : Type} (sep d : A) (l : list A) :
  l <> [] -> last (intersperse sep l) d = last l d.
Proof.
  induction l as [|x [|y l] IH]; intros H; [congruence | reflexivity |].
  rewrite intersperse_cons.
  change (last (x :: sep :: intersperse sep (y :: l)) d)
    with (last (sep :: intersperse sep (y :: l)) d).
  assert (E : intersperse sep (y :: l) <> []) by (destruct l; discriminate).
  destruct (intersperse sep (y :: l)) as [|z t] eqn:Ei; [congruence|].
  change (last (sep :: z :: t) d) with (last (z :: t) d).
  rewrite IH by discriminate. reflexivity.
Qed.

(** The document of a group, for members that are not [null] or
    [undefined]: built when the names and states can be converted to text,
    and not at all otherwise. *)
Lemma group_document (result name state : JsVal) (members : list JsVal) :
  get_prop result "type" = Some (JStr "Group") ->
  get_prop result "name" = Some name ->
  get_prop result "state" = Some state ->
  get_prop result "members" = Some (JArr members) ->
  forallb has_properties members = true ->
  formatItem result
  = if renders name && renders state && forallb item_renders members
    then Some (Codeblock ("Item " ++ to_string name ++ " | " ++ to_string state) "openhab"
               :: Markdown "##### Members:"
               :: intersperse (Text newline) (map item_block members))
    else None.
Proof.
  intros Ht Hn Hs Hm Hok.
  unfold formatItem; rewrite Ht; cbn [bind].
  rewrite Hn; cbn [bind]; unfold template.
  destruct (renders name); cbn [bind andb]; [|reflexivity].
  rewrite Hs; cbn [bind].
  destruct (renders state); cbn [bind andb]; [|reflexivity].
  rewrite Hm; cbn [bind]; cbv zeta.
  rewrite forEach_member_blocks by lia.
  rewrite Hok; cbn [andb].
  destruct (forallb item_renders members); reflexivity.
Qed.

(** C2: for a result of type "Group" whose members are a non-empty array of
    items, the document is the code block "Item {name} | {state}" of the
    group, the heading "Members:", and the code blocks of the members in the
    order of the array with a line break between every two consecutive ones;
    its last block is the code block of the last member, so no line break
    follows it.  It is built whenever the names and states can be converted
    to text, as those of items, which are strings, always can.  For the group
    G with the members A and B this gives four blocks and one line break,
    between the blocks of A and B. *)
Theorem formatItem_group (result name state : JsVal) (members : list JsVal) :
  (get_prop result "type" = Some (JStr "Group") ->
   get_prop result "name" = Some name ->
   get_prop result "state" = Some state ->
   get_prop result "members" = Some (JArr members) ->
   members <> [] ->
   forallb has_properties members = true ->
   exists doc,
     formatItem result
     = (if renders name && renders state && forallb item_renders members
        then Some doc else None)
     /\ doc = (Codeblock ("Item " ++ to_string name ++ " | " ++ to_string state) "openhab"
               :: Markdown "##### Members:"
               :: intersperse (Text newline) (map item_block members))
     /\ last doc (Text newline) = item_block (last members JUndefined))
  /\ formatItem
       (JObj [("type", JStr "Group"); ("name", JStr "G"); ("state", JStr "ON");
              ("members",
               JArr [JObj [("name", JStr "A"); ("state", JStr "ON")];
                     JObj [("name", JStr "B"); ("state", JStr "OFF")]])])
     = Some [Codeblock "Item G | ON" "openhab";
             Markdown "##### Members:";
             Codeblock "Item A | ON" "openhab";
             Text newline;
             Codeblock "Item B | OFF" "openhab"].
Proof.
  split; [|reflexivity].
  intros Ht Hn Hs Hm Hne Hok.
  eexists; split; [|split; [reflexivity|]].
  - exact (group_document result name state members Ht Hn Hs Hm Hok).
  - assert (E : map item_block members <> [])
      by (destruct members; [congruence | discriminate]).
    pose proof (intersperse_last (Text newline) (Text newline) _ E) as Hl.
    destruct (intersperse (Text newline) (map item_block members)) as [|b t] eqn:Ei.
    + destruct members as [|m [|m' l]]; [congruence | discriminate | discriminate].
    + change (last (b :: t) (Text newline)
              = item_block (last members JUndefined)).
      rewrite Hl. clear - Hne.
      induction members as [|m [|m' l] IH]; [congruence | reflexivity |].
      change (last (map item_block (m' :: l)) (Text newline)
              = item_block (last (m' :: l) JUndefined)).
      apply IH; discriminate.
Qed.

Lemma formatItem_group_witness :
  exists doc,
    formatItem
      (JObj [("name", JStr "Lights"); ("type", JStr "Group"); ("state", JNull);
             ("members", JArr [JObj [("state", JNum 3); ("name", JStr "Lamp")]])])
    = Some doc
    /\ doc = [Codeblock "Item Lights | null" "openhab";
              Markdown "##### Members:";
              Codeblock "Item Lamp | 3" "openhab"]
    /\ last doc (Text newline) = Codeblock "Item Lamp | 3" "openhab".
Proof.
  apply (proj1 (formatItem_group
                  (JObj [("name", JStr "Lights"); ("type", JStr "Group"); ("state", JNull);
                         ("members",
                          JArr [JObj [("state", JNum 3); ("name", JStr "Lamp")]])])
                  (JStr "Lights") JNull
                  [JObj [("state", JNum 3); ("name", JStr "Lamp")]]));
    try reflexivity; discriminate.
Defined.

(* ================================================================== *)
(** ** The REST helpers: how their promises settle *)
(* ================================================================== *)

Section RestOutcomes.

Variable request : string -> Response.
Variable JSON_parse : string -> option JsVal.

(** With a truthy [error] the callback resolves with [null], whatever the
    rest of the result is. *)
Lemma hover_of_response_error (response : string) (result error : JsVal) :
  JSON_parse response = Some result ->
  get_prop result "error" = Some error ->
  to_boolean error = true ->
  hover_of_response JSON_parse response = Some None.
Proof.
  intros Hp He Ht; unfold hover_of_response.
  rewrite Hp; cbn [bind]; rewrite He; cbn [bind]; now rewrite Ht.
Qed.

(** A result without error whose document cannot be built rejects the
    promise: a failure of the formatter is not the [null] outcome. *)
Lemma getRestHover_format_failure
      (config : Config) (hoveredText response : string) (result error : JsVal) :
  request (getHost config ++ "/rest/items/" ++ hoveredText) = Fulfilled response ->
  JSON_parse response = Some result ->
  get_prop result "error" = Some error ->
  to_boolean error = false ->
  formatItem result = None ->
  getRestHover request JSON_parse config hoveredText = Rejected (JBool false).
Proof.
  intros Hr Hp He Ht Hf; unfold getRestHover, hover_of_response.
  rewrite Hr, Hp; cbn [bind]; rewrite He; cbn [bind]; rewrite Ht; cbn [negb].
  now rewrite Hf.
Qed.

End RestOutcomes.

(** C8 (as stated, refuted): a result that carries an [error] field whose
    value is the empty string is formatted like any other item; the promise
    resolves with a document, not with [null]. *)
Lemma getRestHover_empty_error_counterexample :
  let result := JObj [("error", JStr ""); ("state", JStr "ON")] in
  let request := fun _ : string => Fulfilled "body" in
  let JSON_parse := fun _ : string => Some result in
  get_prop result "error" = Some (JStr "")
  /\ getRestHover request JSON_parse (mkConfig "h" 8080 None None) "Lamp"
     = Resolved (Some (mkHover [Codeblock "ON" "openhab"]))
  /\ ~ (forall request JSON_parse config hoveredText response result error,
          request (getHost config ++ "/rest/items/" ++ hoveredText) = Fulfilled response ->
          JSON_parse response = Some result ->
          get_prop result "error" = Some error ->
          error <> JUndefined ->
          getRestHover request JSON_parse config hoveredText = Resolved None).
Proof.
  split; [reflexivity|]. split; [reflexivity|].
  intros H.
  specialize (H (fun _ => Fulfilled "body")
                (fun _ => Some (JObj [("error", JStr ""); ("state", JStr "ON")]))
                (mkConfig "h" 8080 None None) "Lamp" "body"
                (JObj [("error", JStr ""); ("state", JStr "ON")]) (JStr "")
                eq_refl eq_refl eq_refl).
  assert (E : JStr "" <> JUndefined) by discriminate.
  specialize (H E); discriminate H.
Qed.

(** C8 (amended): when the parsed response carries an [error] field with a
    truthy value (anything but [false], [null], [0] and the empty string),
    the promise of [getRestHover] resolves with [null]: no document is built,
    also where building one would fail, and the outcome is neither a document
    nor a rejection. *)
Theorem getRestHover_not_found
        (request : string -> Response) (JSON_parse : string -> option JsVal)
        (config : Config) (hoveredText response : string) (result error : JsVal) :
  request (getHost config ++ "/rest/items/" ++ hoveredText) = Fulfilled response ->
  JSON_parse response = Some result ->
  get_prop result "error" = Some error ->
  to_boolean error = true ->
  getRestHover request JSON_parse config hoveredText = Resolved None
  /\ (forall doc, getRestHover request JSON_parse config hoveredText <> Resolved (Some doc))
  /\ (forall reason, getRestHover request JSON_parse config hoveredText <> Rejected reason).
Proof.
  intros Hr Hp He Ht.
  assert (E : getRestHover request JSON_parse config hoveredText = Resolved None).
  { unfold getRestHover; rewrite Hr.
    now rewrite (hover_of_response_error JSON_parse response result error Hp He Ht). }
  rewrite E; repeat split; intros; discriminate.
Qed.

Lemma getRestHover_not_found_witness :
  getRestHover (fun _ => Fulfilled "body")
    (fun _ => Some (JObj [("error", JObj [("message", JStr "Item Lamp does not exist!");
                                          ("http-code", JNum 404)])]))
    (mkConfig "h" 8080 None None) "Lamp"
  = Resolved None.
Proof.
  exact (proj1 (getRestHover_not_found (fun _ => Fulfilled "body")
                  (fun _ => Some (JObj [("error",
                                         JObj [("message", JStr "Item Lamp does not exist!");
                                               ("http-code", JNum 404)])]))
                  (mkConfig "h" 8080 None None) "Lamp" "body" _ _
                  eq_refl eq_refl eq_refl eq_refl)).
Defined.

(** C9 (as stated, refuted): when the network call rejects, no helper maps
    the failure to a result: none of the three promises resolves, with [null]
    or with anything else; each is rejected. *)
Lemma network_failure_rejects_counterexample :
  let request := fun _ : string => Failed (JObj [("message", JStr "ECONNREFUSED")]) in
  let JSON_parse := fun _ : string => Some JNull in
  let config := mkConfig "openhab.local" 8080 None None in
  getRestHover request JSON_parse config "Lamp" = Rejected (JBool false)
  /\ getSimpleModeState request JSON_parse config = Rejected (JArr [])
  /\ getSitemaps request JSON_parse config = Rejected (JArr [])
  /\ ~ (forall request JSON_parse config hoveredText reason,
          request (getHost config ++ "/rest/items/" ++ hoveredText) = Failed reason ->
          exists value, getRestHover request JSON_parse config hoveredText = Resolved value)
  /\ ~ (forall request JSON_parse config reason,
          request (getHost config ++ "/rest/services/org.eclipse.smarthome.links/config")
          = Failed reason ->
          exists value, getSimpleModeState request JSON_parse config = Resolved value)
  /\ ~ (forall request JSON_parse config reason,
          request (getHost config ++ "/rest/sitemaps") = Failed reason ->
          exists value, getSitemaps request JSON_parse config = Resolved value).
Proof.
  intros request JSON_parse config.
  split; [reflexivity|]. split; [reflexivity|]. split; [reflexivity|].
  split; [|split]; intros H.
  - destruct (H request JSON_parse config "Lamp" _ eq_refl) as [value E]; discriminate E.
  - destruct (H request JSON_parse config _ eq_refl) as [value E]; discriminate E.
  - destruct (H request JSON_parse config _ eq_refl) as [value E]; discriminate E.
Qed.

(** C9 (amended): when the network call rejects, each of [getRestHover],
    [getSimpleModeState] and [getSitemaps] rejects its own promise, with a
    fixed value that does not depend on the reason of the failure: [false]
    for [getRestHover], the empty array for the other two.  No helper
    resolves, and [null] is not used. *)
Theorem network_failure_sentinels
        (request : string -> Response) (JSON_parse : string -> option JsVal)
        (config : Config) (hoveredText : string) :
  (forall reason,
      request (getHost config ++ "/rest/items/" ++ hoveredText) = Failed reason ->
      getRestHover request JSON_parse config hoveredText = Rejected (JBool false))
  /\ (forall reason,
         request (getHost config ++ "/rest/services/org.eclipse.smarthome.links/config")
         = Failed reason ->
         getSimpleModeState request JSON_parse config = Rejected (JArr []))
  /\ (forall reason,
         request (getHost config ++ "/rest/sitemaps") = Failed reason ->
         getSitemaps request JSON_parse config = Rejected (JArr [])).
Proof.
  repeat split; intros reason H.
  - unfold getRestHover; now rewrite H.
  - unfold getSimpleModeState; now rewrite H.
  - unfold getSitemaps; now rewrite H.
Qed.

Lemma network_failure_sentinels_witness :
  let request := fun _ : string => Failed (JObj [("message", JStr "ECONNREFUSED")]) in
  let JSON_parse := fun _ : string => Some JNull in
  let config := mkConfig "openhab.local" 8080 None None in
  getRestHover request JSON_parse config "Lamp" = Rejected (JBool false)
  /\ getSimpleModeState request JSON_parse config = Rejected (JArr [])
  /\ getSitemaps request JSON_parse config = Rejected (JArr []).
Proof.
  intros request JSON_parse config.
  destruct (network_failure_sentinels request JSON_parse config "Lamp") as (H1 & H2 & H3).
  split; [exact (H1 _ eq_refl) | split; [exact (H2 _ eq_refl) | exact (H3 _ eq_refl)]].
Defined.

(* ================================================================== *)
(** ** [handleRequestError] *)
(* ================================================================== *)

Lemma error_message_None (err : JsVal) :
  error_message err = None
  <-> (has_properties err = false
       \/ get_prop err "error" = Some JUndefined
       \/ get_prop err "error" = Some JNull).
Proof.
  unfold error_message; split.
  - destruct err; simpl; auto; try discriminate.
    destruct (lookup "error" fields); simpl; auto; discriminate.
  - intros [H | [H | H]].
    + destruct err; simpl in *; try discriminate; reflexivity.
    + now rewrite H.
    + now rewrite H.
Qed.

(** C10 (as stated, refuted): an [error] field that is a number is neither
    a string nor an object, and an [error] object may lack a [message]; in
    both cases reading [err.error.message] does not fail, the message is
    [undefined] and the text shown ends after the fixed sentence. *)
Lemma handleRequestError_number_counterexample :
  handleRequestError (JObj [("error", JNum 500)]) None
  = Some ("Error while connecting to openHAB REST API. ", NoAction)
  /\ handleRequestError (JObj [("error", JObj [])]) None
     = Some ("Error while connecting to openHAB REST API. ", NoAction)
  /\ ~ (forall err error choice,
          get_prop err "error" = Some error ->
          (forall s, error <> JStr s) ->
          (forall fields, error <> JObj fields) ->
          (forall items, error <> JArr items) ->
          handleRequestError err choice = None).
Proof.
  split; [reflexivity|]. split; [reflexivity|].
  intros H.
  assert (E : handleRequestError (JObj [("error", JNum 500)]) None = None).
  { apply (H _ (JNum 500)); [reflexivity | | | ]; intros; discriminate. }
  discriminate E.
Qed.

Lemma lookup_absent (k : string) (fields : list (string * JsVal)) :
  has_field k fields = false -> lookup k fields = JUndefined.
Proof.
  induction fields as [|[k' v] rest IH]; [reflexivity|].
  cbn [has_field lookup]; intros H; apply orb_false_elim in H as [Hk Hr].
  rewrite Hk; exact (IH Hr).
Qed.

Lemma error_message_absent (err error : JsVal) :
  get_prop err "error" = Some error ->
  message_absent error = true ->
  error_message err = Some JUndefined.
Proof.
  intros He Hm; unfold error_message; rewrite He; cbn [bind].
  destruct error; try discriminate; try reflexivity.
  cbn [message_absent] in Hm; apply negb_true_iff in Hm.
  cbn [get_prop]; now rewrite (lookup_absent _ _ Hm).
Qed.

(** C10 (amended): the message extraction of [handleRequestError] fails
    exactly when [err] is [undefined] or [null] or its [error] field is
    absent ([undefined]) or [null], and the function fails with it.  The
    values [false] and [[]], with which the helpers of this module reject,
    have no [error] field, so the function fails on both.  When [err.error]
    is a number, a boolean, or an object or array without a [message]
    property, the extraction succeeds with the message [undefined], and the
    dialog shows the fixed sentence with nothing after it. *)
Theorem handleRequestError_fails_iff (err : JsVal) (choice : option string) :
  (error_message err = None
   <-> (has_properties err = false
        \/ get_prop err "error" = Some JUndefined
        \/ get_prop err "error" = Some JNull))
  /\ (error_message err = None -> handleRequestError err choice = None)
  /\ handleRequestError (JBool false) choice = None
  /\ handleRequestError (JArr []) choice = None
  /\ (forall error,
         get_prop err "error" = Some error ->
         message_absent error = true ->
         error_message err = Some JUndefined
         /\ exists action, handleRequestError err choice = Some (error_prefix, action)).
Proof.
  split; [apply error_message_None|].
  split; [intros H; unfold handleRequestError; now rewrite H|].
  split; [reflexivity|]. split; [reflexivity|].
  intros error He Hm.
  pose proof (error_message_absent err error He Hm) as E.
  split; [exact E|].
  unfold handleRequestError; rewrite E; cbn [bind to_boolean].
  eexists; reflexivity.
Qed.

Lemma handleRequestError_fails_iff_witness :
  (error_message (JObj [("error", JBool true)]) = Some JUndefined
   /\ exists action,
        handleRequestError (JObj [("error", JBool true)]) (Some "Disable REST API")
        = Some (error_prefix, action))
  /\ handleRequestError (JObj [("statusCode", JNum 404)]) None = None.
Proof.
  split.
  - exact (proj2 (proj2 (proj2 (proj2
             (handleRequestError_fails_iff (JObj [("error", JBool true)])
                (Some "Disable REST API")))))
             (JBool true) eq_refl eq_refl).
  - exact (proj1 (proj2 (handleRequestError_fails_iff (JObj [("statusCode", JNum 404)]) None))
             eq_refl).
Defined.

(* ================================================================== *)
(** ** [humanize] *)
(* ================================================================== *)

(** C3: [humanize], the pipeline of ten steps applied in order, maps
    "some_item_id" to "Some item", "someCamelCaseName" to
    "Some camel case name" and the empty string to the empty string. *)
Theorem humanize_examples :
  humanize "some_item_id" = "Some item"
  /\ humanize "someCamelCaseName" = "Some camel case name"
  /\ humanize "" = "".
Proof. split; [reflexivity | split; reflexivity]. Qed.

(** *** Characters *)

Ltac each_char c :=
  destruct c as [[] [] [] [] [] [] [] []]; vm_compute; try discriminate; auto.

Lemma upper_facts (c : ascii) :
  is_upper c = true ->
  is_lower c = false /\ is_digit c = false /\ is_space c = false
  /\ is_dash_or_space c = false /\ Ascii.eqb c " " = false.
Proof. each_char c. Qed.

Lemma lower_of_upper (c : ascii) :
  is_upper c = true ->
  is_upper (lower_char c) = false /\ is_space (lower_char c) = false
  /\ Ascii.eqb (lower_char c) "_" = false /\ upper_char (lower_char c) = c.
Proof. each_char c. Qed.

Lemma word_char_facts (c : ascii) :
  word_char c = true ->
  is_upper c = false /\ is_space c = false /\ is_dash_or_space c = false
  /\ Ascii.eqb c "_" = false /\ Ascii.eqb c " " = false.
Proof. each_char c. Qed.

Lemma lower_char_id (c : ascii) : is_upper c = false -> lower_char c = c.
Proof. intros H; unfold lower_char; now rewrite H. Qed.

Lemma underscore_of_space (c : ascii) :
  Ascii.eqb c "_" = false -> underscore_to_space (space_to_underscore c) = c.
Proof.
  intros H; unfold space_to_underscore, underscore_to_space.
  destruct (Ascii.eqb_spec c " ") as [->|]; [reflexivity | now rewrite H].
Qed.

Lemma space_to_underscore_inj (a b : ascii) :
  Ascii.eqb a "_" = false -> Ascii.eqb b "_" = false ->
  space_to_underscore a = space_to_underscore b -> a = b.
Proof.
  intros Ha Hb H.
  rewrite <- (underscore_of_space a Ha), <- (underscore_of_space b Hb).
  now rewrite H.
Qed.

(** *** Replacement character by character *)

(** Passing [k] matched characters is resuming the scan [k] characters
    further. *)
Lemma replace_all_from_skip (m : Matcher) (k : nat) (s : string) :
  replace_all_from m k s = replace_all m (drop k s).
Proof.
  revert s; induction k as [|k IH]; intros s; [reflexivity|].
  destruct s as [|c r]; [reflexivity|].
  cbn [replace_all_from drop]; apply IH.
Qed.

(** After a match the scan resumes behind the matched text. *)
Lemma replace_all_match (m : Matcher) (s rep : string) (k : nat) :
  s <> "" -> m s = Some (rep, k) ->
  replace_all m s = rep ++ replace_all m (drop (S k) s).
Proof.
  intros Hs H; destruct s as [|c r]; [congruence|].
  unfold replace_all at 1; cbn [replace_all_from drop]; rewrite H.
  now rewrite replace_all_from_skip.
Qed.

Lemma replace_all_no_match (m : Matcher) (c : ascii) (r : string) :
  m (String c r) = None ->
  replace_all m (String c r) = String c (replace_all m r).
Proof. intros H; unfold replace_all; cbn [replace_all_from]; now rewrite H. Qed.

Lemma replace_all_pointwise (m : Matcher) (f : ascii -> ascii) (s : string) :
  pointwise m f s -> replace_all m s = map_chars f s.
Proof.
  unfold replace_all; induction s as [|c r IH]; [reflexivity|].
  intros [[H | [H Hf]] Hr]; cbn [replace_all_from map_chars]; rewrite H.
  - cbn [append]; now rewrite IH.
  - now rewrite Hf, IH.
Qed.

Lemma map_chars_unchanged (f : ascii -> ascii) (p : ascii -> bool) (s : string) :
  (forall c, p c = true -> f c = c) -> all_chars p s = true -> map_chars f s = s.
Proof.
  intros Hf; induction s as [|c r IH]; simpl; [reflexivity|].
  intros H; apply andb_prop in H as [Hc Hr].
  now rewrite (Hf c Hc), IH.
Qed.

Lemma map_chars_id (s : string) : map_chars (fun c => c) s = s.
Proof. induction s as [|c r IH]; simpl; [reflexivity | now rewrite IH]. Qed.

(** [/_/g]: every underscore becomes a space. *)
Lemma replace_all_underscore (s : string) :
  replace_all underscore s = map_chars underscore_to_space s.
Proof.
  apply replace_all_pointwise.
  induction s as [|c r IH]; [exact I|].
  split; [|exact IH].
  unfold underscore, underscore_to_space.
  destruct (Ascii.eqb c "_"); [left; reflexivity | right; split; reflexivity].
Qed.

(** Without a capital after the first character there is no boundary to
    mark. *)
Lemma camel_boundary_none (c : ascii) (r : string) :
  all_chars not_upper r = true -> camel_boundary (String c r) = None.
Proof.
  intros H; unfold camel_boundary.
  destruct (is_lower c || is_digit c); [|reflexivity].
  destruct r as [|d r]; [reflexivity|].
  cbn [all_chars] in H; apply andb_prop in H as [Hd _].
  unfold not_upper in Hd; apply negb_true_iff in Hd.
  cbn [run_of]; now rewrite Hd.
Qed.

Lemma replace_all_camel_unchanged (c : ascii) (r : string) :
  all_chars not_upper r = true ->
  replace_all camel_boundary (String c r) = String c r.
Proof.
  intros H; rewrite (replace_all_pointwise camel_boundary (fun c => c)).
  - apply map_chars_id.
  - revert c; induction r as [|d r IH]; intros c.
    + split; [right; split; [now apply camel_boundary_none | reflexivity] | exact I].
    + split.
      * right; split; [now apply camel_boundary_none | reflexivity].
      * cbn [all_chars] in H; apply andb_prop in H as [_ H]. now apply IH.
Qed.

(** *** Words separated by single spaces *)

Lemma words_all_chars (p : ascii -> bool) :
  p " "%char = true ->
  (forall c, word_char c = true -> p c = true) ->
  forall s b, words_from b s = true -> all_chars p s = true.
Proof.
  intros Hsp Hw; induction s as [|c r IH]; intros b H; [reflexivity|].
  cbn [words_from] in H; cbn [all_chars].
  destruct (Ascii.eqb_spec c " ") as [->|Hc].
  - apply andb_prop in H as [_ H]; rewrite Hsp; exact (IH _ H).
  - apply andb_prop in H as [Hc' H]; rewrite (Hw c Hc'); exact (IH _ H).
Qed.

Lemma words_not_upper (s : string) (b : bool) :
  words_from b s = true -> all_chars not_upper s = true.
Proof.
  apply words_all_chars; [reflexivity|].
  intros c H; unfold not_upper; now rewrite (proj1 (word_char_facts c H)).
Qed.

Lemma words_not_underscore (s : string) (b : bool) :
  words_from b s = true -> all_chars not_underscore s = true.
Proof.
  apply words_all_chars; [reflexivity|].
  intros c H; unfold not_underscore.
  destruct (word_char_facts c H) as (_ & _ & _ & E & _); now rewrite E.
Qed.

(** [/[-\s]+/g] on single spaces between words: every space becomes an
    underscore. *)
Lemma words_pointwise_dash_space (s : string) :
  forall b, words_from b s = true -> pointwise dash_space_run space_to_underscore s.
Proof.
  induction s as [|c r IH]; intros b H; [exact I|].
  cbn [words_from] in H.
  destruct (Ascii.eqb_spec c " ") as [->|Hc].
  - apply andb_prop in H as [_ H]; split; [|exact (IH _ H)].
    left. destruct r as [|d r]; [discriminate H|].
    cbn [words_from] in H.
    destruct (Ascii.eqb d " "); [discriminate H|].
    apply andb_prop in H as [Hd _].
    destruct (word_char_facts d Hd) as (_ & _ & E & _).
    unfold dash_space_run; cbn [run_of]; change (is_dash_or_space " ") with true.
    cbn match; now rewrite E.
  - apply andb_prop in H as [Hc' H]; split; [|exact (IH _ H)].
    right. destruct (word_char_facts c Hc') as (_ & _ & E & _ & E').
    unfold dash_space_run, space_to_underscore; cbn [run_of]; rewrite E, E'.
    split; reflexivity.
Qed.

Lemma words_trimEnd (s : string) :
  forall b, words_from b s = true -> trimEnd s = s.
Proof.
  induction s as [|c r IH]; intros b H; [reflexivity|].
  cbn [words_from] in H; cbn [trimEnd].
  destruct (Ascii.eqb_spec c " ") as [->|Hc].
  - apply andb_prop in H as [_ H]; rewrite (IH _ H).
    destruct r; [discriminate H | reflexivity].
  - apply andb_prop in H as [Hc' H]; rewrite (IH _ H).
    destruct (word_char_facts c Hc') as (_ & E & _).
    destruct r; [now rewrite E | reflexivity].
Qed.

Lemma trimEnd_cons (c : ascii) (r : string) :
  is_space c = false -> trimEnd r = r -> trimEnd (String c r) = String c r.
Proof.
  intros Hc Hr; cbn [trimEnd]; rewrite Hr.
  destruct r; [now rewrite Hc | reflexivity].
Qed.

(** *** The trailing [_id] *)

Lemma replace_first_trailing_id_unchanged (s : string) :
  ends_with "_id" s = false -> replace_first trailing_id s = s.
Proof.
  induction s as [|c r IH]; [reflexivity|].
  cbn [ends_with]; intros H; apply orb_false_elim in H as [H1 H2].
  cbn [replace_first]; unfold trailing_id at 1; rewrite H1.
  now rewrite IH.
Qed.

Lemma ends_with_id_no_underscore (s : string) :
  all_chars not_underscore s = true -> ends_with "_id" s = false.
Proof.
  induction s as [|c r IH]; [reflexivity|].
  cbn [all_chars]; intros H; apply andb_prop in H as [Hc Hr].
  unfold not_underscore in Hc; apply negb_true_iff in Hc.
  cbn [ends_with String.eqb]; rewrite Hc, (IH Hr); reflexivity.
Qed.

Lemma eqb_map_space_to_underscore (s t : string) :
  all_chars not_underscore s = true ->
  all_chars not_underscore t = true ->
  (map_chars space_to_underscore s =? map_chars space_to_underscore t) = (s =? t).
Proof.
  revert t; induction s as [|a s IH]; intros [|b t] Hs Ht; try reflexivity.
  cbn [all_chars] in Hs, Ht.
  apply andb_prop in Hs as [Ha Hs]; apply andb_prop in Ht as [Hb Ht].
  unfold not_underscore in Ha, Hb; apply negb_true_iff in Ha, Hb.
  assert (E : Ascii.eqb (space_to_underscore a) (space_to_underscore b) = Ascii.eqb a b).
  { destruct (Ascii.eqb_spec a b) as [->|Hab]; [apply Ascii.eqb_refl|].
    apply Ascii.eqb_neq; intros E; apply Hab.
    now apply space_to_underscore_inj. }
  cbn [map_chars String.eqb]; now rewrite (IH t Hs Ht), E.
Qed.

Lemma ends_with_id_map (s : string) :
  all_chars not_underscore s = true ->
  ends_with "_id" (map_chars space_to_underscore s) = ends_with " id" s.
Proof.
  induction s as [|c r IH]; [reflexivity|].
  intros H; pose proof H as H'.
  cbn [all_chars] in H'; apply andb_prop in H' as [_ Hr].
  cbn [map_chars ends_with]; rewrite (IH Hr); f_equal.
  change (String (space_to_underscore c) (map_chars space_to_underscore r) =? "_id")
    with (map_chars space_to_underscore (String c r)
          =? map_chars space_to_underscore " id").
  now apply eqb_map_space_to_underscore.
Qed.

(** *** [humanize] on an already humanized text *)

(** A humanized text that does not end with the word "id" is left as it is
    by [humanize]. *)
Lemma humanize_fixes_humanized (x : string) :
  already_humanized x = true -> ends_with " id" x = false -> humanize x = x.
Proof.
  destruct x as [|C r]; [discriminate|].
  unfold already_humanized; intros H Hid.
  apply andb_prop in H as [H _]; apply andb_prop in H as [HC Hw].
  destruct (upper_facts C HC) as (HCl & HCd & HCs & HCds & HCsp).
  destruct (lower_of_upper C HC) as (HLu & HLs & HLus & HLup).
  pose proof (words_not_upper r false Hw) as Hnu.
  pose proof (words_not_underscore r false Hw) as Hnus.
  pose proof (words_trimEnd r false Hw) as Htr.
  cbn [ends_with] in Hid; apply orb_false_elim in Hid as [_ Hid].
  unfold humanize.
  (* 1: trim *)
  assert (E1 : trim (String C r) = String C r).
  { unfold trim; cbn [trimStart]; rewrite HCs; now apply trimEnd_cons. }
  rewrite E1.
  (* 2: no boundary after the leading capital *)
  rewrite (replace_all_camel_unchanged C r Hnu).
  (* 3: spaces to underscores *)
  assert (E3 : replace_all dash_space_run (String C r)
               = String C (map_chars space_to_underscore r)).
  { rewrite (replace_all_pointwise dash_space_run space_to_underscore).
    - cbn [map_chars]; unfold space_to_underscore at 1; now rewrite HCsp.
    - split; [|exact (words_pointwise_dash_space r false Hw)].
      right; unfold dash_space_run, space_to_underscore; cbn [run_of].
      rewrite HCds, HCsp; split; reflexivity. }
  rewrite E3.
  (* 4: lower case *)
  assert (Hnu' : all_chars not_upper (map_chars space_to_underscore r) = true).
  { clear - Hnu; induction r as [|c r IH]; [reflexivity|].
    cbn [all_chars] in Hnu; apply andb_prop in Hnu as [Hc Hr].
    cbn [map_chars all_chars]; rewrite (IH Hr), andb_true_r.
    unfold space_to_underscore; destruct (Ascii.eqb c " "); [reflexivity | exact Hc]. }
  assert (E4 : toLowerCase (String C (map_chars space_to_underscore r))
               = String (lower_char C) (map_chars space_to_underscore r)).
  { unfold toLowerCase; cbn [map_chars]; f_equal.
    apply (map_chars_unchanged lower_char not_upper); [|exact Hnu'].
    intros c Hc; apply lower_char_id; unfold not_upper in Hc.
    now apply negb_true_iff in Hc. }
  rewrite E4.
  (* 5: no capital is left *)
  rewrite (replace_all_camel_unchanged _ _ Hnu').
  (* 6: no trailing _id *)
  assert (E6 : ends_with "_id" (String (lower_char C) (map_chars space_to_underscore r))
               = false).
  { cbn [ends_with String.eqb]; rewrite HLus; cbn [andb orb].
    now rewrite (ends_with_id_map r Hnus). }
  rewrite (replace_first_trailing_id_unchanged _ E6).
  (* 7: underscores back to spaces *)
  assert (E7 : replace_all underscore (String (lower_char C) (map_chars space_to_underscore r))
               = String (lower_char C) r).
  { rewrite replace_all_underscore; cbn [map_chars].
    unfold underscore_to_space at 1; rewrite HLus; f_equal.
    clear - Hnus; induction r as [|c r IH]; [reflexivity|].
    cbn [all_chars] in Hnus; apply andb_prop in Hnus as [Hc Hr].
    unfold not_underscore in Hc; apply negb_true_iff in Hc.
    cbn [map_chars]; now rewrite (underscore_of_space c Hc), (IH Hr). }
  rewrite E7.
  (* 8: nothing left to strip or to replace *)
  assert (Hnus' : all_chars not_underscore (String (lower_char C) r) = true).
  { cbn [all_chars]; unfold not_underscore at 1; now rewrite HLus, Hnus. }
  rewrite (replace_first_trailing_id_unchanged _ (ends_with_id_no_underscore _ Hnus')).
  assert (E8 : replace_all underscore (String (lower_char C) r) = String (lower_char C) r).
  { rewrite replace_all_underscore.
    apply (map_chars_unchanged underscore_to_space not_underscore); [|exact Hnus'].
    intros c Hc; unfold not_underscore in Hc; apply negb_true_iff in Hc.
    unfold underscore_to_space; now rewrite Hc. }
  rewrite E8.
  (* 9: trim *)
  assert (E9 : trim (String (lower_char C) r) = String (lower_char C) r).
  { unfold trim; cbn [trimStart]; rewrite HLs; now apply trimEnd_cons. }
  rewrite E9.
  (* 10: the capital is restored *)
  cbn [upperFirst]; now rewrite HLup.
Qed.

(** C6 (as stated, refuted): "Some id" has a single leading capital, words
    separated by spaces and no trailing [_id], it is even a result of
    [humanize], and yet [humanize] turns it into "Some". *)
Lemma humanize_last_word_id_counterexample :
  already_humanized "Some id" = true
  /\ humanize "some id id" = "Some id"
  /\ humanize (humanize "Some id") = "Some"
  /\ ~ (forall x, already_humanized x = true -> humanize (humanize x) = x).
Proof.
  split; [reflexivity|]. split; [reflexivity|]. split; [reflexivity|].
  intros H; specialize (H "Some id" eq_refl); discriminate H.
Qed.

(** C6 (amended): for every already humanized ASCII text [x] (a single
    leading capital, words separated by single spaces, no trailing [_id])
    whose last word is not "id" after a space, [humanize x] is [x], and so
    is [humanize (humanize x)]. *)
Theorem humanize_idempotent (x : string) :
  already_humanized x = true ->
  ends_with " id" x = false ->
  humanize x = x /\ humanize (humanize x) = x.
Proof.
  intros H Hid.
  pose proof (humanize_fixes_humanized x H Hid) as E.
  split; [exact E | now rewrite !E].
Qed.

Lemma humanize_idempotent_witness :
  humanize "Kitchen light 2 (dimmer)" = "Kitchen light 2 (dimmer)"
  /\ humanize (humanize "Kitchen light 2 (dimmer)") = "Kitchen light 2 (dimmer)".
Proof.
  exact (humanize_idempotent "Kitchen light 2 (dimmer)" eq_refl eq_refl).
Defined.

(* ================================================================== *)
(** ** [humanize]: what every result looks like *)
(* ================================================================== *)

Lemma lower_char_facts (c : ascii) :
  is_upper (lower_char c) = false
  /\ is_dash_or_space (lower_char c) = is_dash_or_space c.
Proof. each_char c. Qed.

Lemma upper_char_facts (c : ascii) :
  is_lower (upper_char c) = false
  /\ is_space (upper_char c) = is_space c
  /\ (plain_char c = true -> plain_char (upper_char c) = true).
Proof. each_char c. Qed.

Lemma underscore_to_space_plain (c : ascii) :
  is_dash_or_space c = false -> plain_char (underscore_to_space c) = true.
Proof. each_char c. Qed.

Lemma underscore_to_space_not_upper (c : ascii) :
  is_upper c = false -> is_upper (underscore_to_space c) = false.
Proof. each_char c. Qed.

Lemma plain_char_not_underscore (c : ascii) :
  plain_char c = true -> not_underscore c = true.
Proof. each_char c. Qed.

Lemma all_chars_impl (p q : ascii -> bool) (s : string) :
  (forall c, p c = true -> q c = true) -> all_chars p s = true -> all_chars q s = true.
Proof.
  intros Hpq; induction s as [|c r IH]; [reflexivity|].
  cbn [all_chars]; intros H; apply andb_prop in H as [Hc Hr].
  now rewrite (Hpq c Hc), (IH Hr).
Qed.

Lemma all_chars_map (p q : ascii -> bool) (f : ascii -> ascii) (s : string) :
  (forall c, p c = true -> q (f c) = true) ->
  all_chars p s = true -> all_chars q (map_chars f s) = true.
Proof.
  intros Hpq; induction s as [|c r IH]; [reflexivity|].
  cbn [all_chars map_chars]; intros H; apply andb_prop in H as [Hc Hr].
  now rewrite (Hpq c Hc), (IH Hr).
Qed.

Lemma length_drop (k : nat) (s : string) : length (drop k s) <= length s.
Proof.
  revert s; induction k as [|k IH]; intros [|c r]; cbn [drop length]; try lia.
  specialize (IH r); lia.
Qed.

(** After the third step neither a hyphen nor white space is left. *)
Lemma dash_space_pass_clean (s : string) :
  all_chars not_dash_or_space (replace_all dash_space_run s) = true.
Proof.
  assert (G : forall n s, length s <= n ->
                          all_chars not_dash_or_space (replace_all dash_space_run s) = true).
  { induction n as [|n IH]; intros [|c r] Hn; try reflexivity; [simpl in Hn; lia|].
    cbn [length] in Hn.
    destruct (is_dash_or_space c) eqn:Ec.
    - assert (E : dash_space_run (String c r)
                  = Some ("_", length (run_of is_dash_or_space r))).
      { unfold dash_space_run; cbn [run_of]; now rewrite Ec. }
      assert (Hne : String c r <> "") by discriminate.
      rewrite (replace_all_match _ _ _ _ Hne E).
      cbn [append all_chars drop].
      apply IH. pose proof (length_drop (length (run_of is_dash_or_space r)) r); lia.
    - assert (E : dash_space_run (String c r) = None).
      { unfold dash_space_run; cbn [run_of]; now rewrite Ec. }
      rewrite (replace_all_no_match _ _ _ E); cbn [all_chars].
      unfold not_dash_or_space at 1; rewrite Ec; cbn [negb andb].
      apply IH; lia. }
  exact (G (length s) s (le_n _)).
Qed.

(** The fifth step finds nothing to do after the fourth. *)
Lemma camel_pass_after_lower (s : string) :
  replace_all camel_boundary (toLowerCase s) = toLowerCase s.
Proof.
  assert (H : all_chars not_upper (toLowerCase s) = true).
  { unfold toLowerCase; induction s as [|c r IH]; [reflexivity|].
    cbn [map_chars all_chars]; unfold not_upper at 1.
    now rewrite (proj1 (lower_char_facts c)), IH. }
  destruct (toLowerCase s) as [|c r]; [reflexivity|].
  cbn [all_chars] in H; apply andb_prop in H as [_ H].
  now apply replace_all_camel_unchanged.
Qed.

(** The eighth step finds nothing to do after the seventh. *)
Lemma underscore_pass_stable (s : string) :
  replace_all underscore (replace_first trailing_id (replace_all underscore s))
  = replace_all underscore s.
Proof.
  assert (H : all_chars not_underscore (replace_all underscore s) = true).
  { rewrite replace_all_underscore.
    induction s as [|c r IH]; [reflexivity|].
    cbn [map_chars all_chars]; rewrite IH, andb_true_r.
    unfold not_underscore, underscore_to_space.
    destruct (Ascii.eqb c "_") eqn:E; [reflexivity | now rewrite E]. }
  rewrite (replace_first_trailing_id_unchanged _ (ends_with_id_no_underscore _ H)).
  rewrite (replace_all_underscore (replace_all underscore s)).
  apply (map_chars_unchanged underscore_to_space not_underscore); [|exact H].
  intros c Hc; unfold not_underscore in Hc; apply negb_true_iff in Hc.
  unfold underscore_to_space; now rewrite Hc.
Qed.

Lemma humanize_as_short (str : string) : humanize str = humanize_short str.
Proof.
  unfold humanize, humanize_short, humanize_core.
  now rewrite camel_pass_after_lower, underscore_pass_stable.
Qed.

(** What [/_id$/] removes is at the end. *)
Lemma replace_first_trailing_id_prefix (s : string) :
  replace_first trailing_id s = s \/ s = replace_first trailing_id s ++ "_id".
Proof.
  induction s as [|c r IH]; [left; reflexivity|].
  cbn [replace_first]; unfold trailing_id at 1 3.
  destruct (String.eqb_spec (String c r) "_id") as [E|E].
  - right; rewrite E; reflexivity.
  - destruct IH as [IH|IH]; [left; now rewrite IH | right].
    cbn [append]; now rewrite <- IH.
Qed.

Lemma all_chars_replace_first_trailing_id (p : ascii -> bool) (s : string) :
  all_chars p s = true -> all_chars p (replace_first trailing_id s) = true.
Proof.
  intros H; destruct (replace_first_trailing_id_prefix s) as [E|E]; [now rewrite E|].
  rewrite E, all_chars_append in H; now apply andb_prop in H as [H _].
Qed.

Lemma all_chars_trimStart (p : ascii -> bool) (s : string) :
  all_chars p s = true -> all_chars p (trimStart s) = true.
Proof.
  induction s as [|c r IH]; [reflexivity|].
  intros H; cbn [trimStart]; destruct (is_space c); [|exact H].
  cbn [all_chars] in H; apply andb_prop in H as [_ H]; exact (IH H).
Qed.

Lemma all_chars_trimEnd (p : ascii -> bool) (s : string) :
  all_chars p s = true -> all_chars p (trimEnd s) = true.
Proof.
  induction s as [|c r IH]; [reflexivity|].
  cbn [all_chars]; intros H; apply andb_prop in H as [Hc Hr].
  specialize (IH Hr); cbn [trimEnd].
  destruct (trimEnd r) as [|d r'].
  - destruct (is_space c); [reflexivity | cbn [all_chars]; now rewrite Hc].
  - cbn [all_chars] in *; now rewrite Hc, IH.
Qed.

Lemma all_chars_trim (p : ascii -> bool) (s : string) :
  all_chars p s = true -> all_chars p (trim s) = true.
Proof. intros H; unfold trim; now apply all_chars_trimEnd, all_chars_trimStart. Qed.

(** The text before the last two steps: plain characters, no capital. *)
Lemma humanize_core_chars (str : string) :
  all_chars plain_char (humanize_core str) = true
  /\ all_chars not_upper (humanize_core str) = true.
Proof.
  unfold humanize_core.
  set (s3 := replace_all dash_space_run (replace_all camel_boundary (trim str))).
  assert (H3 : all_chars not_dash_or_space s3 = true) by apply dash_space_pass_clean.
  assert (H4 : all_chars not_dash_or_space (toLowerCase s3) = true).
  { unfold toLowerCase; apply (all_chars_map not_dash_or_space); [|exact H3].
    intros c Hc; unfold not_dash_or_space in *.
    now rewrite (proj2 (lower_char_facts c)). }
  assert (H4' : all_chars not_upper (toLowerCase s3) = true).
  { unfold toLowerCase; apply (all_chars_map (fun _ => true)).
    - intros c _; unfold not_upper; now rewrite (proj1 (lower_char_facts c)).
    - clear; induction s3 as [|c r IH]; [reflexivity | exact IH]. }
  apply (all_chars_replace_first_trailing_id _ _) in H4.
  apply (all_chars_replace_first_trailing_id _ _) in H4'.
  rewrite replace_all_underscore; split.
  - apply (all_chars_map not_dash_or_space); [|exact H4].
    intros c Hc; apply underscore_to_space_plain.
    unfold not_dash_or_space in Hc; now apply negb_true_iff in Hc.
  - apply (all_chars_map not_upper); [|exact H4'].
    intros c Hc; unfold not_upper in *; apply negb_true_iff in Hc.
    now rewrite (underscore_to_space_not_upper c Hc).
Qed.

Lemma first_is_space_trimStart (s : string) : first_is_space (trimStart s) = false.
Proof.
  induction s as [|c r IH]; [reflexivity|].
  cbn [trimStart]; destruct (is_space c) eqn:E; [exact IH | exact E].
Qed.

Lemma first_is_space_trimEnd (s : string) :
  first_is_space s = false -> first_is_space (trimEnd s) = false.
Proof.
  destruct s as [|c r]; [reflexivity|].
  cbn [first_is_space trimEnd]; intros H.
  destruct (trimEnd r); [rewrite H; exact H | exact H].
Qed.

Lemma last_is_space_trimEnd (s : string) : last_is_space (trimEnd s) = false.
Proof.
  induction s as [|c r IH]; [reflexivity|].
  cbn [trimEnd]; destruct (trimEnd r) as [|d r'].
  - destruct (is_space c) eqn:E; [reflexivity | exact E].
  - exact IH.
Qed.

Lemma trim_edges (s : string) :
  first_is_space (trim s) = false /\ last_is_space (trim s) = false.
Proof.
  unfold trim; split.
  - apply first_is_space_trimEnd, first_is_space_trimStart.
  - apply last_is_space_trimEnd.
Qed.

Lemma upperFirst_chars (s : string) :
  all_chars plain_char s = true -> all_chars plain_char (upperFirst s) = true.
Proof.
  destruct s as [|c r]; [reflexivity|].
  cbn [upperFirst all_chars]; intros H; apply andb_prop in H as [Hc Hr].
  destruct (upper_char_facts c) as (_ & _ & Hp); now rewrite (Hp Hc), Hr.
Qed.

Lemma upperFirst_edges (s : string) :
  first_is_space (upperFirst s) = first_is_space s
  /\ last_is_space (upperFirst s) = last_is_space s.
Proof.
  destruct s as [|c r]; [split; reflexivity|].
  destruct (upper_char_facts c) as (_ & Hs & _).
  cbn [upperFirst first_is_space last_is_space]; split; [exact Hs|].
  destruct r; [exact Hs | reflexivity].
Qed.

(** X1: the result of [humanize] on an ASCII text contains no underscore, no
    hyphen and no white space other than the space. *)
Theorem humanize_plain (str : string) :
  all_chars is_ascii str = true ->
  all_chars plain_char (humanize str) = true.
Proof.
  intros _; rewrite humanize_as_short; unfold humanize_short.
  apply upperFirst_chars, all_chars_trim.
  exact (proj1 (humanize_core_chars str)).
Qed.

Lemma humanize_plain_witness :
  all_chars plain_char (humanize " my-Item_name  ") = true.
Proof. exact (humanize_plain " my-Item_name  " eq_refl). Defined.

(** X2: the result of [humanize] on an ASCII text neither starts nor ends
    with white space. *)
Theorem humanize_trimmed (str : string) :
  all_chars is_ascii str = true ->
  first_is_space (humanize str) = false /\ last_is_space (humanize str) = false.
Proof.
  intros _; rewrite humanize_as_short; unfold humanize_short.
  destruct (upperFirst_edges (trim (humanize_core str))) as [E1 E2].
  destruct (trim_edges (humanize_core str)) as [T1 T2].
  rewrite E1, E2; now split.
Qed.

Lemma humanize_trimmed_witness :
  first_is_space (humanize "- item -") = false
  /\ last_is_space (humanize "- item -") = false.
Proof. exact (humanize_trimmed "- item -" eq_refl). Defined.

(** X3: in the result of [humanize] on an ASCII text the first character is
    not a small letter and no later character is a capital. *)
Theorem humanize_casing (str : string) :
  all_chars is_ascii str = true ->
  first_is_lower (humanize str) = false
  /\ all_chars not_upper (tail_chars (humanize str)) = true.
Proof.
  intros _; rewrite humanize_as_short; unfold humanize_short.
  pose proof (all_chars_trim not_upper _ (proj2 (humanize_core_chars str))) as H.
  destruct (trim (humanize_core str)) as [|c r]; [split; reflexivity|].
  cbn [upperFirst first_is_lower tail_chars]; split.
  - exact (proj1 (upper_char_facts c)).
  - cbn [all_chars] in H; now apply andb_prop in H as [_ H].
Qed.

Lemma humanize_casing_witness :
  first_is_lower (humanize "openHAB Item") = false
  /\ all_chars not_upper (tail_chars (humanize "openHAB Item")) = true.
Proof. exact (humanize_casing "openHAB Item" eq_refl). Defined.

(** X4: the fifth and the eighth step of [humanize] never change anything:
    after the text is put in lower case no boundary is left to mark, and
    after the underscores are replaced neither a trailing [_id] nor an
    underscore is left; [humanize] is the pipeline without these steps. *)
Theorem humanize_redundant_steps (str : string) :
  (forall s, replace_all camel_boundary (toLowerCase s) = toLowerCase s)
  /\ (forall s, replace_all underscore (replace_first trailing_id (replace_all underscore s))
                = replace_all underscore s)
  /\ humanize str
     = upperFirst
         (trim
            (replace_all underscore
               (replace_first trailing_id
                  (toLowerCase
                     (replace_all dash_space_run
                        (replace_all camel_boundary (trim str))))))).
Proof.
  split; [exact camel_pass_after_lower|].
  split; [exact underscore_pass_stable|].
  exact (humanize_as_short str).
Qed.

Lemma trimStart_blank (s : string) : all_chars is_space s = true -> trimStart s = "".
Proof.
  induction s as [|c r IH]; [reflexivity|].
  cbn [all_chars trimStart]; intros H; apply andb_prop in H as [Hc Hr].
  rewrite Hc; exact (IH Hr).
Qed.

(** X5: a text made of white space only, the empty text included, is
    humanized to the empty text. *)
Theorem humanize_blank (str : string) :
  all_chars is_space str = true -> humanize str = "".
Proof.
  intros H.
  assert (E : trim str = "") by (unfold trim; now rewrite (trimStart_blank str H)).
  unfold humanize; cbv zeta; rewrite E; reflexivity.
Qed.

Lemma humanize_blank_witness : humanize "    " = "".
Proof. exact (humanize_blank "    " eq_refl). Defined.

(* ================================================================== *)
(** ** [getHost]: the parts of the host *)
(* ================================================================== *)

Lemma locals_with_scheme (config : Config) (pre post : string) :
  cut "://" (host config) = Some (pre, post) ->
  l_protocol (getHost_locals config) = pre
  /\ l_host (getHost_locals config) = up_to_scheme_mark post.
Proof.
  destruct config as [h n u p]; unfold getHost_locals, includes, up_to_scheme_mark.
  cbn [host]; intros E; rewrite E.
  destruct (split_pieces "://" h pre post) as [H0 H1]; [discriminate | exact E |].
  cbn [l_protocol l_host]; now rewrite H0, H1.
Qed.

(** The text before the first occurrence does not contain the pattern. *)
Lemma cut_before_clean (pat s a b : string) :
  pat <> "" -> cut pat s = Some (a, b) -> includes pat a = false.
Proof.
  intros Hpat H; unfold includes.
  destruct (cut pat a) as [[p q]|] eqn:E; [exfalso | reflexivity].
  apply cut_Some in E.
  pose proof (cut_Some _ _ _ _ H) as Hs.
  assert (Hs' : s = p ++ pat ++ (q ++ pat ++ b)).
  { rewrite Hs, E, !append_assoc; reflexivity. }
  pose proof (cut_minimal _ _ _ _ _ _ H Hs') as Hle.
  rewrite E, !length_append in Hle.
  destruct pat; [congruence | simpl in Hle; lia].
Qed.

Lemma up_to_scheme_mark_clean (s : string) :
  includes "://" (up_to_scheme_mark s) = false.
Proof.
  unfold up_to_scheme_mark.
  destruct (cut "://" s) as [[a b]|] eqn:E.
  - apply (cut_before_clean "://" s a b); [discriminate | exact E].
  - unfold includes; now rewrite E.
Qed.

(** X6: neither the scheme nor the bare host that [getHost] composes its
    result from contains "://", whatever the configured host is. *)
Theorem getHost_parts_clean (config : Config) :
  includes "://" (l_protocol (getHost_locals config)) = false
  /\ includes "://" (l_host (getHost_locals config)) = false.
Proof.
  destruct (cut "://" (host config)) as [[pre post]|] eqn:E.
  - destruct (locals_with_scheme config pre post E) as [H1 H2].
    rewrite H1, H2; split.
    + apply (cut_before_clean "://" (host config) pre post); [discriminate | exact E].
    + apply up_to_scheme_mark_clean.
  - assert (Hi : includes "://" (host config) = false) by (unfold includes; now rewrite E).
    destruct (locals_without_scheme config Hi) as [H1 H2].
    rewrite H1, H2; split; [reflexivity | exact Hi].
Qed.

(** X7: a configured host that already has the form scheme + "://" + host,
    with a single "://", comes back unchanged from [getHost] when the port is
    80 and neither a user name nor a password is set. *)
Theorem getHost_qualified_host (config : Config) (pre post : string) :
  cut "://" (host config) = Some (pre, post) ->
  includes "://" post = false ->
  or_empty (username config) = "" ->
  or_empty (password config) = "" ->
  port config = 80%Z ->
  getHost config = host config.
Proof.
  intros E Hpost Hu Hp Hport.
  destruct (locals_with_scheme config pre post E) as [H1 H2].
  assert (H3 : up_to_scheme_mark post = post).
  { unfold up_to_scheme_mark; unfold includes in Hpost.
    destruct (cut "://" post) as [[a b]|]; [discriminate | reflexivity]. }
  unfold getHost.
  rewrite H1, H2, H3, (authentication_empty config Hu Hp), Hport.
  cbn [Z.eqb Pos.eqb append]; rewrite append_empty_r.
  symmetry; exact (cut_Some "://" _ _ _ E).
Qed.

Lemma getHost_qualified_host_witness :
  getHost (mkConfig "https://demo.openhab.org" 80 (Some "") None)
  = "https://demo.openhab.org".
Proof.
  exact (getHost_qualified_host (mkConfig "https://demo.openhab.org" 80 (Some "") None)
           "https" "demo.openhab.org" eq_refl eq_refl eq_refl eq_refl eq_refl).
Defined.

(* ================================================================== *)
(** ** [getRestHover]: plain items, groups, failures *)
(* ================================================================== *)

Ltac split_match :=
  repeat match goal with
         | |- context [match ?x with _ => _ end] =>
             is_var x; destruct x; try reflexivity; try congruence
         end.

(** Any type but the string "Group" takes the second branch. *)
Lemma formatItem_plain (result type : JsVal) :
  get_prop result "type" = Some type ->
  type <> JStr "Group" ->
  formatItem result
  = (state <- get_prop result "state" ;;
     state <- template state ;;
     Some [Codeblock state "openhab"]).
Proof.
  intros Ht Hne; unfold formatItem; rewrite Ht; cbn [bind].
  unfold appendCodeblock; cbn [app].
  destruct type as [| | b | n | s | items | fields]; try reflexivity.
  split_match.
Qed.

Lemma filter_intersperse (bs : list Block) :
  forallb is_codeblock bs = true ->
  filter is_codeblock (intersperse (Text newline) bs) = bs
  /\ filter is_markdown (intersperse (Text newline) bs) = []
  /\ List.length (filter is_text (intersperse (Text newline) bs)) = List.length bs - 1.
Proof.
  induction bs as [|b [|b' l] IH]; intros H.
  - repeat split.
  - cbn [forallb] in H; apply andb_prop in H as [Hb _].
    destruct b; try discriminate; repeat split.
  - pose proof H as H'; cbn [forallb] in H'; apply andb_prop in H' as [Hb H'].
    destruct (IH H') as (IH1 & IH2 & IH3).
    rewrite intersperse_cons.
    destruct b; try discriminate.
    cbn [filter is_codeblock is_markdown is_text].
    rewrite IH1, IH2; repeat split.
    cbn [List.length] in *; rewrite IH3; lia.
Qed.

Lemma item_blocks_are_codeblocks (items : list JsVal) :
  forallb is_codeblock (map item_block items) = true.
Proof. induction items as [|m l IH]; [reflexivity | exact IH]. Qed.

Section HoverOutcomes.

Variable request : string -> Response.
Variable JSON_parse : string -> option JsVal.

(** How [getRestHover] settles for a parsed result without error. *)
Lemma getRestHover_formats
      (config : Config) (hoveredText response : string) (result error : JsVal) :
  request (getHost config ++ "/rest/items/" ++ hoveredText) = Fulfilled response ->
  JSON_parse response = Some result ->
  get_prop result "error" = Some error ->
  to_boolean error = false ->
  getRestHover request JSON_parse config hoveredText
  = match formatItem result with
    | Some doc => Resolved (Some (mkHover doc))
    | None => Rejected (JBool false)
    end.
Proof.
  intros Hr Hp He Ht; unfold getRestHover, hover_of_response.
  rewrite Hr, Hp; cbn [bind]; rewrite He; cbn [bind]; rewrite Ht; cbn [negb].
  destruct (formatItem result); reflexivity.
Qed.

Lemma getRestHover_rejected_reason (config : Config) (hoveredText : string) (r : JsVal) :
  getRestHover request JSON_parse config hoveredText = Rejected r -> r = JBool false.
Proof.
  unfold getRestHover.
  destruct (request _) as [body|e]; [|intros H; now inversion H].
  destruct (hover_of_response JSON_parse body); intros H; now inversion H.
Qed.

Lemma getSimpleModeState_rejected_reason (config : Config) (r : JsVal) :
  getSimpleModeState request JSON_parse config = Rejected r -> r = JArr [].
Proof.
  unfold getSimpleModeState.
  destruct (request _) as [body|e]; [|intros H; now inversion H].
  destruct (bind _ _); intros H; now inversion H.
Qed.

Lemma getSitemaps_rejected_reason (config : Config) (r : JsVal) :
  getSitemaps request JSON_parse config = Rejected r -> r = JArr [].
Proof.
  unfold getSitemaps.
  destruct (request _) as [body|e]; [|intros H; now inversion H].
  destruct (JSON_parse body); intros H; now inversion H.
Qed.

End HoverOutcomes.

(** X8: for a result without error whose type is not the string "Group", the
    hover is a single code block that shows the state alone, provided the
    state can be converted to text; otherwise the promise is rejected with
    [false].  A result without a [state] field shows the text "undefined". *)
Theorem getRestHover_plain_item
        (request : string -> Response) (JSON_parse : string -> option JsVal)
        (config : Config) (hoveredText response : string)
        (fields : list (string * JsVal)) :
  request (getHost config ++ "/rest/items/" ++ hoveredText) = Fulfilled response ->
  JSON_parse response = Some (JObj fields) ->
  to_boolean (lookup "error" fields) = false ->
  lookup "type" fields <> JStr "Group" ->
  getRestHover request JSON_parse config hoveredText
  = (if renders (lookup "state" fields)
     then Resolved (Some (mkHover [Codeblock (to_string (lookup "state" fields)) "openhab"]))
     else Rejected (JBool false))
  /\ (lookup "state" fields = JUndefined ->
      getRestHover request JSON_parse config hoveredText
      = Resolved (Some (mkHover [Codeblock "undefined" "openhab"]))).
Proof.
  intros Hr Hp He Ht.
  assert (E : getRestHover request JSON_parse config hoveredText
              = (if renders (lookup "state" fields)
                 then Resolved (Some (mkHover [Codeblock (to_string (lookup "state" fields))
                                                 "openhab"]))
                 else Rejected (JBool false))).
  { rewrite (getRestHover_formats request JSON_parse config hoveredText response
               (JObj fields) (lookup "error" fields) Hr Hp eq_refl He).
    rewrite (formatItem_plain (JObj fields) (lookup "type" fields) eq_refl Ht).
    cbn [get_prop bind]; unfold template.
    destruct (renders (lookup "state" fields)); reflexivity. }
  split; [exact E | intros Hs; now rewrite E, Hs].
Qed.

Lemma getRestHover_plain_item_witness :
  getRestHover (fun _ => Fulfilled "body")
    (fun _ => Some (JObj [("name", JStr "Lamp"); ("type", JStr "Switch");
                          ("state", JStr "ON")]))
    (mkConfig "h" 8080 None None) "Lamp"
  = Resolved (Some (mkHover [Codeblock "ON" "openhab"]))
  /\ getRestHover (fun _ => Fulfilled "body")
       (fun _ => Some (JObj [("type", JStr "Switch");
                             ("state", JObj [("toString", JNum 0)])]))
       (mkConfig "h" 8080 None None) "Lamp"
     = Rejected (JBool false).
Proof.
  split.
  - refine (proj1 (getRestHover_plain_item (fun _ => Fulfilled "body")
                     (fun _ => Some (JObj [("name", JStr "Lamp"); ("type", JStr "Switch");
                                           ("state", JStr "ON")]))
                     (mkConfig "h" 8080 None None) "Lamp" "body" _
                     eq_refl eq_refl eq_refl _)).
    discriminate.
  - refine (proj1 (getRestHover_plain_item (fun _ => Fulfilled "body")
                     (fun _ => Some (JObj [("type", JStr "Switch");
                                           ("state", JObj [("toString", JNum 0)])]))
                     (mkConfig "h" 8080 None None) "Lamp" "body" _
                     eq_refl eq_refl eq_refl _)).
    discriminate.
Defined.

(** X9: the document of a group with n members, the empty group included,
    whose names and states can be converted to text, has n + 1 code blocks,
    one heading and n - 1 line breaks (none for n = 0); its code blocks after
    the first are those of the members, in the order of the array. *)
Theorem group_document_counts (result name state : JsVal) (members : list JsVal) :
  get_prop result "type" = Some (JStr "Group") ->
  get_prop result "name" = Some name ->
  get_prop result "state" = Some state ->
  get_prop result "members" = Some (JArr members) ->
  forallb has_properties members = true ->
  renders name = true ->
  renders state = true ->
  forallb item_renders members = true ->
  exists doc,
    formatItem result = Some doc
    /\ count is_codeblock doc = S (List.length members)
    /\ count is_markdown doc = 1
    /\ count is_text doc = List.length members - 1
    /\ tl (filter is_codeblock doc) = map item_block members.
Proof.
  intros Ht Hn Hs Hm Hok Rn Rs Rm.
  pose proof (group_document result name state members Ht Hn Hs Hm Hok) as E.
  rewrite Rn, Rs, Rm in E; cbn [andb] in E.
  eexists; split; [exact E|].
  destruct (filter_intersperse (map item_block members)
              (item_blocks_are_codeblocks members)) as (F1 & F2 & F3).
  unfold count; cbn [filter is_codeblock is_markdown is_text List.length tl].
  rewrite F1, F2, F3, !length_map; repeat split.
Qed.

Lemma group_document_counts_witness :
  exists doc,
    formatItem (JObj [("type", JStr "Group"); ("name", JStr "Empty"); ("members", JArr [])])
    = Some doc
    /\ count is_codeblock doc = 1
    /\ count is_markdown doc = 1
    /\ count is_text doc = 0
    /\ tl (filter is_codeblock doc) = [].
Proof.
  exact (group_document_counts
           (JObj [("type", JStr "Group"); ("name", JStr "Empty"); ("members", JArr [])])
           (JStr "Empty") JUndefined []
           eq_refl eq_refl eq_refl eq_refl eq_refl eq_refl eq_refl eq_refl).
Defined.

(** X10: for a group without error, [getRestHover] rejects, with [false],
    exactly when the name or the state of the group cannot be converted to
    text, or [members] is not an array, or one of the members is [null] or
    [undefined] or has a name or state that cannot be converted to text;
    otherwise it resolves with the document, never with a part of it. *)
Theorem getRestHover_group_rejects_iff
        (request : string -> Response) (JSON_parse : string -> option JsVal)
        (config : Config) (hoveredText response : string)
        (fields : list (string * JsVal)) :
  request (getHost config ++ "/rest/items/" ++ hoveredText) = Fulfilled response ->
  JSON_parse response = Some (JObj fields) ->
  to_boolean (lookup "error" fields) = false ->
  lookup "type" fields = JStr "Group" ->
  (getRestHover request JSON_parse config hoveredText = Rejected (JBool false)
   <-> (renders (lookup "name" fields) && renders (lookup "state" fields) = false
        \/ match lookup "members" fields with
           | JArr members =>
               forallb has_properties members && forallb item_renders members = false
           | _ => True
           end))
  /\ ((exists doc, getRestHover request JSON_parse config hoveredText
                   = Resolved (Some (mkHover doc)))
      \/ getRestHover request JSON_parse config hoveredText = Rejected (JBool false)).
Proof.
  intros Hr Hp He Ht.
  rewrite (getRestHover_formats request JSON_parse config hoveredText response
             (JObj fields) (lookup "error" fields) Hr Hp eq_refl He).
  assert (Hf : formatItem (JObj fields)
               = if renders (lookup "name" fields) && renders (lookup "state" fields)
                 then match lookup "members" fields with
                      | JArr members =>
                          forEach_member (Z.of_nat (List.length members)) 0 members
                            [Codeblock ("Item " ++ to_string (lookup "name" fields) ++ " | "
                                        ++ to_string (lookup "state" fields)) "openhab";
                             Markdown "##### Members:"]
                      | _ => None
                      end
                 else None).
  { unfold formatItem; cbn [get_prop bind]; rewrite Ht; unfold template.
    destruct (renders (lookup "name" fields)); cbn [bind andb]; [|reflexivity].
    destruct (renders (lookup "state" fields)); reflexivity. }
  rewrite Hf; clear Hf.
  destruct (renders (lookup "name" fields) && renders (lookup "state" fields)).
  - split.
    + destruct (lookup "members" fields) as [| | b | n | s | members | fs];
        try (split; [intros _; right; exact I | reflexivity]).
      rewrite forEach_member_blocks by lia.
      destruct (forallb has_properties members && forallb item_renders members).
      * split; [discriminate | intros [H | H]; discriminate H].
      * split; [intros _; right; reflexivity | reflexivity].
    + destruct (match lookup "members" fields with JArr _ => _ | _ => None end) as [doc|];
        [left; now exists doc | right; reflexivity].
  - split; [split; [intros _; left; reflexivity | reflexivity] | right; reflexivity].
Qed.

Lemma getRestHover_group_rejects_iff_witness :
  getRestHover (fun _ => Fulfilled "body")
    (fun _ => Some (JObj [("type", JStr "Group"); ("name", JObj [("toString", JNum 0)]);
                          ("members", JArr [])]))
    (mkConfig "h" 8080 None None) "G"
  = Rejected (JBool false)
  /\ getRestHover (fun _ => Fulfilled "body")
       (fun _ => Some (JObj [("type", JStr "Group"); ("name", JStr "G");
                             ("members", JArr [JObj [("name", JStr "A")]; JNull])]))
       (mkConfig "h" 8080 None None) "G"
     = Rejected (JBool false).
Proof.
  split.
  - exact (proj2 (proj1 (getRestHover_group_rejects_iff (fun _ => Fulfilled "body")
                           (fun _ => Some (JObj [("type", JStr "Group");
                                                 ("name", JObj [("toString", JNum 0)]);
                                                 ("members", JArr [])]))
                           (mkConfig "h" 8080 None None) "G" "body" _
                           eq_refl eq_refl eq_refl eq_refl))
             (or_introl eq_refl)).
  - exact (proj2 (proj1 (getRestHover_group_rejects_iff (fun _ => Fulfilled "body")
                           (fun _ => Some (JObj [("type", JStr "Group"); ("name", JStr "G");
                                                 ("members",
                                                  JArr [JObj [("name", JStr "A")]; JNull])]))
                           (mkConfig "h" 8080 None None) "G" "body" _
                           eq_refl eq_refl eq_refl eq_refl))
             (or_intror eq_refl)).
Defined.

(* ================================================================== *)
(** ** The REST helpers: every way they settle *)
(* ================================================================== *)

(** X11: whatever the network and the parser do, a rejection of
    [getRestHover] carries [false] and a rejection of [getSimpleModeState] or
    [getSitemaps] carries the empty array: the reason of a network failure,
    of a parse error or of an exception never reaches the caller. *)
Theorem rejections_carry_no_detail
        (request : string -> Response) (JSON_parse : string -> option JsVal)
        (config : Config) (hoveredText : string) (reason : JsVal) :
  (getRestHover request JSON_parse config hoveredText = Rejected reason ->
   reason = JBool false)
  /\ (getSimpleModeState request JSON_parse config = Rejected reason -> reason = JArr [])
  /\ (getSitemaps request JSON_parse config = Rejected reason -> reason = JArr []).
Proof.
  split; [apply getRestHover_rejected_reason|].
  split; [apply getSimpleModeState_rejected_reason | apply getSitemaps_rejected_reason].
Qed.

Lemma rejections_carry_no_detail_witness :
  getSitemaps (fun _ => Fulfilled "not json") (fun _ => None)
    (mkConfig "h" 8080 None None)
  = Rejected (JArr [])
  /\ JArr [] = JArr [].
Proof.
  split; [reflexivity|].
  exact (proj2 (proj2 (rejections_carry_no_detail
                         (fun _ => Fulfilled "not json") (fun _ => None)
                         (mkConfig "h" 8080 None None) "Lamp" (JArr [])))
           eq_refl).
Defined.

(** X12: [handleRequestError] fails on every value that [getRestHover],
    [getSimpleModeState] or [getSitemaps] can reject with: a caller that
    passes on what it caught from these helpers gets an exception instead of
    the error message. *)
Theorem handleRequestError_rejects_own_rejections
        (request : string -> Response) (JSON_parse : string -> option JsVal)
        (config : Config) (hoveredText : string) (reason : JsVal)
        (choice : option string) :
  getRestHover request JSON_parse config hoveredText = Rejected reason
  \/ getSimpleModeState request JSON_parse config = Rejected reason
  \/ getSitemaps request JSON_parse config = Rejected reason ->
  handleRequestError reason choice = None.
Proof.
  intros [H | [H | H]].
  - now rewrite (getRestHover_rejected_reason _ _ _ _ _ H).
  - now rewrite (getSimpleModeState_rejected_reason _ _ _ _ H).
  - now rewrite (getSitemaps_rejected_reason _ _ _ _ H).
Qed.

Lemma handleRequestError_rejects_own_rejections_witness :
  handleRequestError (JArr []) (Some "Set openHAB host") = None.
Proof.
  exact (handleRequestError_rejects_own_rejections
           (fun _ => Failed (JObj [("error", JStr "ETIMEDOUT")])) (fun _ => None)
           (mkConfig "h" 8080 None None) "Lamp" (JArr []) (Some "Set openHAB host")
           (or_intror (or_introl eq_refl))).
Defined.

(** X13: [getSitemaps] resolves exactly when the request is fulfilled and
    its body parses, and then with the parsed value as it is, whatever its
    shape. *)
Theorem getSitemaps_resolves_iff
        (request : string -> Response) (JSON_parse : string -> option JsVal)
        (config : Config) (value : JsVal) :
  getSitemaps request JSON_parse config = Resolved value
  <-> exists body,
        request (getHost config ++ "/rest/sitemaps") = Fulfilled body
        /\ JSON_parse body = Some value.
Proof.
  unfold getSitemaps; split.
  - destruct (request _) as [body|e] eqn:Hr; [|discriminate].
    destruct (JSON_parse body) as [v|] eqn:E; [|discriminate].
    intros H; inversion H; subst; now exists body.
  - intros (body & Hr & Hp); now rewrite Hr, Hp.
Qed.

(** X14: [getSimpleModeState] resolves exactly when the request is
    fulfilled and its body parses to something other than [null], and then
    with the [autoLinks] property as it is: [undefined] when the property is
    missing, and no conversion to a boolean. *)
Theorem getSimpleModeState_resolves_iff
        (request : string -> Response) (JSON_parse : string -> option JsVal)
        (config : Config) (value : JsVal) :
  getSimpleModeState request JSON_parse config = Resolved value
  <-> exists body responseJson,
        request (getHost config ++ "/rest/services/org.eclipse.smarthome.links/config")
        = Fulfilled body
        /\ JSON_parse body = Some responseJson
        /\ has_properties responseJson = true
        /\ value = match responseJson with
                   | JObj fields => lookup "autoLinks" fields
                   | _ => JUndefined
                   end.
Proof.
  unfold getSimpleModeState; split.
  - destruct (request _) as [body|e] eqn:Hr; [|discriminate].
    destruct (JSON_parse body) as [j|] eqn:E; cbn [bind]; [|discriminate].
    destruct j; cbn [get_prop]; try discriminate;
      intros H; inversion H; subst; exists body; eexists;
      (split; [reflexivity | split; [exact E | split; reflexivity]]).
  - intros (body & j & Hr & Hp & Hj & Hv); rewrite Hr, Hp; cbn [bind].
    destruct j; try discriminate; now subst.
Qed.

(* ================================================================== *)
(** ** [handleRequestError]: the message and the action *)
(* ================================================================== *)

Lemma shown_string (s : string) :
  (if to_boolean (JStr s) then template (JStr s) else Some "") = Some s.
Proof. destruct s; reflexivity. Qed.

(** X15: when [err.error] is a string, the dialog shows the fixed sentence
    followed by that string; when it is an object whose [message] is a
    string, the fixed sentence followed by the message. *)
Theorem handleRequestError_message (err : JsVal) (choice : option string) :
  (forall s,
      get_prop err "error" = Some (JStr s) ->
      exists action, handleRequestError err choice = Some (error_prefix ++ s, action))
  /\ (forall fields m,
         get_prop err "error" = Some (JObj fields) ->
         lookup "message" fields = JStr m ->
         exists action, handleRequestError err choice = Some (error_prefix ++ m, action)).
Proof.
  split.
  - intros s He; unfold handleRequestError, error_message.
    rewrite He; cbn [bind]; rewrite shown_string; cbn [bind].
    eexists; reflexivity.
  - intros fields m He Hm; unfold handleRequestError, error_message.
    rewrite He; cbn [bind get_prop]; rewrite Hm, shown_string; cbn [bind].
    eexists; reflexivity.
Qed.

Lemma handleRequestError_message_witness :
  exists action,
    handleRequestError
      (JObj [("name", JStr "RequestError");
             ("error", JObj [("code", JStr "ECONNREFUSED");
                             ("message", JStr "connect ECONNREFUSED 127.0.0.1:8080")])])
      None
    = Some (error_prefix ++ "connect ECONNREFUSED 127.0.0.1:8080", action).
Proof.
  exact (proj2 (handleRequestError_message
                  (JObj [("name", JStr "RequestError");
                         ("error", JObj [("code", JStr "ECONNREFUSED");
                                         ("message",
                                          JStr "connect ECONNREFUSED 127.0.0.1:8080")])])
                  None)
           _ "connect ECONNREFUSED 127.0.0.1:8080" eq_refl eq_refl).
Defined.

(** X16: when the dialog is shown, the settings are opened exactly for the
    choice "Set openHAB host" and the REST API is disabled exactly for the
    choice "Disable REST API"; a dismissed dialog or any other choice does
    nothing, and the text shown does not depend on the choice. *)
Theorem handleRequestError_action
        (err : JsVal) (choice : option string) (shown : string) (action : Action) :
  handleRequestError err choice = Some (shown, action) ->
  (action = OpenWorkspaceSettings <-> choice = Some "Set openHAB host")
  /\ (action = DisableRestApi <-> choice = Some "Disable REST API")
  /\ (action = NoAction
      <-> choice <> Some "Set openHAB host" /\ choice <> Some "Disable REST API")
  /\ (forall choice', exists action',
         handleRequestError err choice' = Some (shown, action')).
Proof.
  unfold handleRequestError.
  destruct (error_message err) as [message|]; cbn [bind]; [|discriminate].
  destruct (if to_boolean message then template message else Some "") as [text|];
    cbn [bind]; [|discriminate].
  cbv zeta.
  match goal with |- Some (?t, _) = _ -> _ => generalize t end.
  intros txt H; injection H as Hs Ha; subst shown action.
  assert (T : forall choice', exists action',
               Some (txt,
                     match choice' with
                     | Some c =>
                         if c =? "Set openHAB host" then OpenWorkspaceSettings
                         else if c =? "Disable REST API" then DisableRestApi
                         else NoAction
                     | None => NoAction
                     end) = Some (txt, action'))
    by (intros; eexists; reflexivity).
  destruct choice as [c|].
  - destruct (String.eqb_spec c "Set openHAB host") as [->|N1].
    + split; [split; reflexivity|].
      split; [split; discriminate|].
      split; [split; [discriminate | intros [N _]; congruence] | exact T].
    + destruct (String.eqb_spec c "Disable REST API") as [->|N2].
      * split; [split; discriminate|].
        split; [split; reflexivity|].
        split; [split; [discriminate | intros [_ N]; congruence] | exact T].
      * split; [split; [discriminate | congruence]|].
        split; [split; [discriminate | congruence]|].
        split; [split; [intros _; split; congruence | reflexivity] | exact T].
  - split; [split; discriminate|].
    split; [split; discriminate|].
    split; [split; [intros _; split; discriminate | reflexivity] | exact T].
Qed.

Lemma handleRequestError_action_witness :
  (DisableRestApi = OpenWorkspaceSettings <-> Some "Disable REST API" = Some "Set openHAB host")
  /\ (DisableRestApi = DisableRestApi <-> Some "Disable REST API" = Some "Disable REST API")
  /\ (DisableRestApi = NoAction
      <-> Some "Disable REST API" <> Some "Set openHAB host"
          /\ Some "Disable REST API" <> Some "Disable REST API")
  /\ (forall choice', exists action',
         handleRequestError (JObj [("error", JStr "timeout")]) choice'
         = Some (error_prefix ++ "timeout", action')).
Proof.
  exact (handleRequestError_action (JObj [("error", JStr "timeout")])
           (Some "Disable REST API") (error_prefix ++ "timeout") DisableRestApi eq_refl).
Defined.

(* ================================================================== *)
(** ** [appendToOutput], [openUI] and [openBrowser] *)
(* ================================================================== *)

Lemma appendToOutput_step (message : string) (out : Output) :
  output_lines (appendToOutput message out) = (output_lines out ++ [message])%list
  /\ extensionOutput (appendToOutput message out) <> None
  /\ created (appendToOutput message out)
     = (created out ++ match extensionOutput out with
                       | Some _ => []
                       | None => ["openHAB Extension"]
                       end)%list.
Proof.
  destruct out as [[ch|] cr]; unfold appendToOutput, output_lines; cbn.
  - rewrite app_nil_r; repeat split; discriminate.
  - repeat split; discriminate.
Qed.

Lemma appendAll_steps (msgs : list string) :
  forall out,
    output_lines (appendAll msgs out) = (output_lines out ++ msgs)%list
    /\ (msgs <> [] -> extensionOutput (appendAll msgs out) <> None)
    /\ created (appendAll msgs out)
       = (created out ++ match msgs, extensionOutput out with
                         | _ :: _, None => ["openHAB Extension"]
                         | _, _ => []
                         end)%list.
Proof.
  induction msgs as [|m rest IH]; intros out.
  - unfold appendAll; cbn [fold_left]; rewrite !app_nil_r.
    repeat split; congruence.
  - change (appendAll (m :: rest) out) with (appendAll rest (appendToOutput m out)).
    destruct (IH (appendToOutput m out)) as (L & E & C).
    destruct (appendToOutput_step m out) as (L1 & E1 & C1).
    rewrite L, C, L1, C1, <- !app_assoc; split; [reflexivity | split].
    + intros _; destruct rest as [|m' rest']; [exact E1 | apply E; discriminate].
    + destruct (extensionOutput (appendToOutput m out)) eqn:Eo; [|congruence].
      destruct rest; cbn [app]; rewrite ?app_nil_r; reflexivity.
Qed.

(** X17: after any non-empty sequence of calls of [appendToOutput] the
    channel exists and holds the earlier lines followed by the messages in
    the order of the calls; the channel "openHAB Extension" is created once,
    by the first call that finds none, and never again. *)
Theorem appendToOutput_sequence (msgs : list string) (out : Output) :
  msgs <> [] ->
  (exists ch,
      extensionOutput (appendAll msgs out) = Some ch
      /\ channel_lines ch = (output_lines out ++ msgs)%list)
  /\ created (appendAll msgs out)
     = (created out ++ match extensionOutput out with
                       | Some _ => []
                       | None => ["openHAB Extension"]
                       end)%list
  /\ (forall more, created (appendAll more (appendAll msgs out))
                   = created (appendAll msgs out)).
Proof.
  intros Hne.
  destruct (appendAll_steps msgs out) as (L & E & C).
  specialize (E Hne).
  destruct (extensionOutput (appendAll msgs out)) as [ch|] eqn:Eo; [|congruence].
  split; [exists ch; split; [reflexivity|] | split].
  - unfold output_lines at 1 in L; now rewrite Eo in L.
  - rewrite C; destruct msgs; [congruence | reflexivity].
  - intros more; destruct (appendAll_steps more (appendAll msgs out)) as (_ & _ & C').
    rewrite C', Eo; destruct more; now rewrite app_nil_r.
Qed.

Lemma appendToOutput_sequence_witness :
  (exists ch,
      extensionOutput (appendAll ["a"; "b"] (mkOutput None [])) = Some ch
      /\ channel_lines ch = ["a"; "b"])
  /\ created (appendAll ["a"; "b"] (mkOutput None [])) = ["openHAB Extension"]
  /\ (forall more, created (appendAll more (appendAll ["a"; "b"] (mkOutput None [])))
                   = created (appendAll ["a"; "b"] (mkOutput None []))).
Proof.
  apply (appendToOutput_sequence ["a"; "b"] (mkOutput None [])); discriminate.
Defined.

(** X18: [openUI] shows the address [getHost()] + query, with "/basicui/app"
    for a query left out, and logs exactly one line, which names that same
    address; the lines logged before are kept.  The query is appended as it
    is, also when it is an absolute URL. *)
Theorem openUI_logs_what_it_opens
        (config : Config) (extensionPath : string) (query title : option string)
        (out : Output) :
  let src := getHost config ++ match query with Some q => q | None => "/basicui/app" end in
  snd (openUI config extensionPath query title out)
  = mkPanelCall extensionPath title src
  /\ output_lines (fst (openUI config extensionPath query title out))
     = (output_lines out ++ [("URL that will be opened is: " ++ src)%string])%list
  /\ extensionOutput (fst (openUI config extensionPath query title out)) <> None.
Proof.
  cbv zeta; unfold openUI; cbn [fst snd].
  destruct (appendToOutput_step
              ("URL that will be opened is: "
               ++ getHost config ++ match query with Some q => q | None => "/basicui/app" end)
              out) as (L & E & _).
  split; [reflexivity | split; [exact L | exact E]].
Qed.

Lemma replace_absent (pat rep s : string) :
  includes pat s = false -> replace pat rep s = s.
Proof.
  unfold includes, replace; destruct (cut pat s) as [[a b]|]; [discriminate | reflexivity].
Qed.

(** X19: with an active editor, an absolute URL (one that begins with
    "http") without the placeholder "%s" is opened unchanged, whatever the
    selection and the configuration are; a relative URL whose address has no
    placeholder is opened at the address that [openUI] shows for it. *)
Theorem openBrowser_without_placeholder
        (config : Config) (text url : string) :
  (startsWith "http" url = true ->
   includes "%s" url = false ->
   openBrowser config (Some text) url = OpenUri url)
  /\ (startsWith "http" url = false ->
      includes "%s" (getHost config ++ url) = false ->
      forall extensionPath title out,
        openBrowser config (Some text) url
        = OpenUri (panel_src (snd (openUI config extensionPath (Some url) title out)))).
Proof.
  split.
  - intros Ha Hp; unfold openBrowser, buildUrl; rewrite Ha; cbv zeta.
    now rewrite (replace_absent _ _ _ Hp).
  - intros Ha Hp extensionPath title out.
    unfold openBrowser, buildUrl, openUI; rewrite Ha; cbv zeta; cbn [snd panel_src].
    now rewrite (replace_absent _ _ _ Hp).
Qed.

Lemma openBrowser_without_placeholder_witness :
  openBrowser (mkConfig "h" 8080 None None) (Some "$& text") "https://www.openhab.org/docs"
  = OpenUri "https://www.openhab.org/docs"
  /\ openBrowser (mkConfig "h" 8080 None None) (Some "$& text") "/paperui/index.html"
     = OpenUri "http://h:8080/paperui/index.html".
Proof.
  split.
  - exact (proj1 (openBrowser_without_placeholder (mkConfig "h" 8080 None None)
                    "$& text" "https://www.openhab.org/docs") eq_refl eq_refl).
  - exact (proj2 (openBrowser_without_placeholder (mkConfig "h" 8080 None None)
                    "$& text" "/paperui/index.html") eq_refl eq_refl
             "ext" None (mkOutput None [])).
Defined.

(* ================================================================== *)
(** ** [humanize] on names in snake case *)
(* ================================================================== *)

Lemma plain_words_words (y : string) :
  plain_words y = true -> words_from false y = true.
Proof.
  destruct y as [|c r]; [discriminate|].
  unfold plain_words; intros H; pose proof H as H'.
  apply andb_prop in H' as [Hc _].
  destruct (word_char_facts c Hc) as (_ & _ & _ & _ & E).
  cbn [words_from]; now rewrite E.
Qed.

Lemma space_to_underscore_facts (c : ascii) :
  Ascii.eqb c " " = true \/ word_char c = true ->
  is_dash_or_space (space_to_underscore c) = false
  /\ is_upper (space_to_underscore c) = false.
Proof. each_char c; intros [H|H]; discriminate H. Qed.

Lemma words_underscored_chars (s : string) (b : bool) :
  words_from b s = true ->
  all_chars not_dash_or_space (map_chars space_to_underscore s) = true
  /\ all_chars not_upper (map_chars space_to_underscore s) = true.
Proof.
  revert b; induction s as [|c r IH]; intros b H; [split; reflexivity|].
  cbn [words_from] in H; cbn [map_chars all_chars].
  assert (Hc : Ascii.eqb c " " = true \/ word_char c = true /\ True).
  { destruct (Ascii.eqb c " "); [now left | right].
    apply andb_prop in H as [H _]; now split. }
  assert (Hr : exists b', words_from b' r = true).
  { destruct (Ascii.eqb c " "); apply andb_prop in H as [_ H]; eexists; exact H. }
  destruct Hr as [b' Hr]; destruct (IH b' Hr) as [I1 I2].
  destruct (space_to_underscore_facts c) as [F1 F2]; [tauto|].
  unfold not_dash_or_space at 1, not_upper at 1; rewrite F1, F2, I1, I2; split; reflexivity.
Qed.

Lemma dash_space_pass_unchanged (s : string) :
  all_chars not_dash_or_space s = true -> replace_all dash_space_run s = s.
Proof.
  intros H; rewrite (replace_all_pointwise dash_space_run (fun c => c)).
  - apply map_chars_id.
  - induction s as [|c r IH]; [exact I|].
    cbn [all_chars] in H; apply andb_prop in H as [Hc Hr].
    unfold not_dash_or_space in Hc; apply negb_true_iff in Hc.
    split; [|exact (IH Hr)].
    right; unfold dash_space_run; cbn [run_of]; rewrite Hc; split; reflexivity.
Qed.

Lemma not_dash_or_space_not_space (c : ascii) :
  not_dash_or_space c = true -> is_space c = false.
Proof. each_char c. Qed.

Lemma trim_unchanged (s : string) :
  all_chars not_dash_or_space s = true -> trim s = s.
Proof.
  intros H; unfold trim.
  assert (E : trimStart s = s).
  { destruct s as [|c r]; [reflexivity|].
    cbn [all_chars] in H; apply andb_prop in H as [Hc _].
    cbn [trimStart]; now rewrite (not_dash_or_space_not_space c Hc). }
  rewrite E; clear E.
  induction s as [|c r IH]; [reflexivity|].
  cbn [all_chars] in H; apply andb_prop in H as [Hc Hr].
  apply trimEnd_cons; [exact (not_dash_or_space_not_space c Hc) | exact (IH Hr)].
Qed.

Lemma words_trim (y : string) : plain_words y = true -> trim y = y.
Proof.
  intros H; pose proof (plain_words_words y H) as Hw.
  destruct y as [|c r]; [discriminate|].
  unfold plain_words in H; apply andb_prop in H as [Hc Hr].
  destruct (word_char_facts c Hc) as (_ & Hs & _).
  unfold trim; cbn [trimStart]; rewrite Hs.
  exact (words_trimEnd _ false Hw).
Qed.

(** From the fourth step on, for a phrase with underscores for its
    spaces. *)
Lemma core_of_underscored (y : string) :
  words_from false y = true ->
  ends_with " id" y = false ->
  replace_all underscore
    (replace_first trailing_id (toLowerCase (map_chars space_to_underscore y)))
  = y.
Proof.
  intros Hw Hid.
  destruct (words_underscored_chars y false Hw) as [_ Hnu].
  pose proof (words_not_underscore y false Hw) as Hnus.
  assert (E4 : toLowerCase (map_chars space_to_underscore y)
               = map_chars space_to_underscore y).
  { apply (map_chars_unchanged lower_char not_upper); [|exact Hnu].
    intros c Hc; apply lower_char_id; unfold not_upper in Hc.
    now apply negb_true_iff in Hc. }
  rewrite E4.
  assert (E6 : ends_with "_id" (map_chars space_to_underscore y) = false)
    by now rewrite (ends_with_id_map y Hnus).
  rewrite (replace_first_trailing_id_unchanged _ E6), replace_all_underscore.
  clear - Hnus; induction y as [|c r IH]; [reflexivity|].
  cbn [all_chars] in Hnus; apply andb_prop in Hnus as [Hc Hr].
  unfold not_underscore in Hc; apply negb_true_iff in Hc.
  cbn [map_chars]; now rewrite (underscore_of_space c Hc), (IH Hr).
Qed.

(** X20: for a phrase of ASCII words without capitals, separated by single
    spaces and not ending with the word "id", [humanize] only puts the first
    letter in upper case; and the same phrase written in snake case, with
    underscores for the spaces, is humanized to that same result. *)
Theorem humanize_snake_case (y : string) :
  plain_words y = true ->
  ends_with " id" y = false ->
  humanize y = upperFirst y
  /\ humanize (map_chars space_to_underscore y) = upperFirst y.
Proof.
  intros Hp Hid.
  pose proof (plain_words_words y Hp) as Hw.
  pose proof (words_not_upper y false Hw) as Hnu.
  destruct (words_underscored_chars y false Hw) as [Hds' Hnu'].
  rewrite !humanize_as_short; unfold humanize_short, humanize_core.
  split.
  - rewrite (words_trim y Hp).
    assert (E2 : replace_all camel_boundary y = y).
    { destruct y as [|c r]; [reflexivity|].
      cbn [all_chars] in Hnu; apply andb_prop in Hnu as [_ Hnu].
      now apply replace_all_camel_unchanged. }
    rewrite E2.
    rewrite (replace_all_pointwise dash_space_run space_to_underscore y
               (words_pointwise_dash_space y false Hw)).
    now rewrite (core_of_underscored y Hw Hid), (words_trim y Hp).
  - rewrite (trim_unchanged _ Hds').
    assert (E2 : replace_all camel_boundary (map_chars space_to_underscore y)
                 = map_chars space_to_underscore y).
    { destruct (map_chars space_to_underscore y) as [|c r]; [reflexivity|].
      cbn [all_chars] in Hnu'; apply andb_prop in Hnu' as [_ Hnu'].
      now apply replace_all_camel_unchanged. }
    rewrite E2, (dash_space_pass_unchanged _ Hds').
    now rewrite (core_of_underscored y Hw Hid), (words_trim y Hp).
Qed.

Lemma humanize_snake_case_witness :
  humanize "kitchen light level" = "Kitchen light level"
  /\ humanize "kitchen_light_level" = "Kitchen light level".
Proof. exact (humanize_snake_case "kitchen light level" eq_refl eq_refl). Defined.

(* ================================================================== *)
(** ** [handleRequestError]: every way it fails *)
(* ================================================================== *)

